(** * The chunk-request retry engine of the curve client, and the metaserver's
    inflight throttle

  A shallow embedding of
  - [src/client/chunk_closure.cpp] (the [ClientClosure] family: the callback
    that runs when a chunk RPC completes),
  - [src/client/request_closure.h] (the per-request bookkeeping), and
  - [curvefs/src/metaserver/inflight_throttle.h],
  followed by the properties of the retry engine that the design document
  states about them.

  Conventions.  C++ integers are values of [Z]; the wrap-around of
  [uint64_t] arithmetic is written out with [u64].  Pointers to the
  request ([done_], [reqCtx_]) are flattened into one state record.  Calls
  to the collaborators (metadata cache, transport, metrics, sleep) are
  recorded in a trace of [Event]s, most recent first, so that "is called"
  and "is not called" are statements about the trace.  [LOG(...)]
  statements have no effect on the state and are left out. *)

From Stdlib Require Import ZArith List String Bool Lia.
Import ListNotations.
Local Open Scope Z_scope.

(** ** Machine arithmetic *)

(** Reduction of a mathematical integer to [uint64_t]. *)
Definition u64 (z : Z) : Z := z mod 2 ^ 64.

(** The expression [1 << k] of type [int].  The operand [1] is an [int], so
  the result is an [int] whatever the type of [k]: the value is [2^k] as
  long as that fits ([k < 31]).  For larger [k] the behaviour is undefined
  (or implementation-defined, by language version); the model stops
  there. *)
Definition shl_one (k : Z) : option Z :=
  if (0 <=? k) && (k <? 31) then Some (2 ^ k) else None.

(** ** [InflightThrottle] (curvefs/src/metaserver/inflight_throttle.h) *)

Module Throttle.

Record InflightThrottle : Type := mkThrottle {
  inflightRequestCount_ : Z;     (* std::atomic<uint64_t> *)
  maxInflightRequest_ : Z        (* const uint64_t *)
}.

(** [explicit InflightThrottle(uint64_t maxInflight)] *)
Definition construct (maxInflight : Z) : InflightThrottle :=
  mkThrottle 0 maxInflight.

Definition IsOverLoad (t : InflightThrottle) : bool :=
  if maxInflightRequest_ t >=? inflightRequestCount_ t then false else true.

(** [fetch_add(1)] and [fetch_sub(1)] on a [uint64_t]. *)
Definition Increment (t : InflightThrottle) : InflightThrottle :=
  mkThrottle (u64 (inflightRequestCount_ t + 1)) (maxInflightRequest_ t).

Definition Decrement (t : InflightThrottle) : InflightThrottle :=
  mkThrottle (u64 (inflightRequestCount_ t - 1)) (maxInflightRequest_ t).

(** The calls a throttle can receive after its construction. *)
Inductive Op : Type := OpIncrement | OpDecrement.

Definition apply_op (t : InflightThrottle) (o : Op) : InflightThrottle :=
  match o with
  | OpIncrement => Increment t
  | OpDecrement => Decrement t
  end.

Definition run (maxInflight : Z) (ops : list Op) : InflightThrottle :=
  fold_left apply_op ops (construct maxInflight).

End Throttle.

(** ** Configuration of the retry engine

  [failReqOpt_] and [backoffParam_] are static members of [ClientClosure].
  Their struct declarations are in headers; the fields below are the ones
  the closure reads.  [std::min] and [std::max] are applied to them
  together with [uint64_t] locals, which fixes their type. *)

Record FailureRequestOption : Type := mkFailureRequestOption {
  chunkserverOPMaxRetry : Z;
  chunkserverOPRetryIntervalUS : Z;
  chunkserverRPCTimeoutMS : Z;
  chunkserverMaxRPCTimeoutMS : Z;
  chunkserverMaxRetrySleepIntervalUS : Z;
  chunkserverMinRetryTimesForceTimeoutBackoff : Z;
  chunkserverSlowRequestThresholdMS : Z
}.

Record BackoffParam : Type := mkBackoffParam {
  maxTimeoutPow : Z;
  maxOverloadPow : Z
}.

(** ** The back-off calculator *)

Section Backoff.

Variable failReqOpt_ : FailureRequestOption.
Variable backoffParam_ : BackoffParam.

(** [uint64_t ClientClosure::TimeoutBackOff(uint64_t currentRetryTimes)] *)
Definition TimeoutBackOff (currentRetryTimes : Z) : option Z :=
  let curpowTime := Z.min currentRetryTimes (maxTimeoutPow backoffParam_) in
  match shl_one curpowTime with
  | None => None
  | Some p =>
      let nextTimeout := u64 (chunkserverRPCTimeoutMS failReqOpt_ * u64 p) in
      let nextTimeout :=
        Z.min nextTimeout (chunkserverMaxRPCTimeoutMS failReqOpt_) in
      let nextTimeout :=
        Z.max nextTimeout (chunkserverRPCTimeoutMS failReqOpt_) in
      Some nextTimeout
  end.

(** [uint64_t ClientClosure::OverLoadBackOff(uint64_t currentRetryTimes)].
    [rnd] is the value returned by [std::rand()], an [int] that is
    converted to [uint64_t] by the [%]. *)
Definition OverLoadBackOff (currentRetryTimes rnd : Z) : option Z :=
  let curpowTime := Z.min currentRetryTimes (maxOverloadPow backoffParam_) in
  match shl_one curpowTime with
  | None => None
  | Some p =>
      let nextsleeptime :=
        u64 (chunkserverOPRetryIntervalUS failReqOpt_ * u64 p) in
      (* -10% ~ 10% jitter *)
      let random_time := u64 rnd mod (nextsleeptime / 5 + 1) in
      let random_time := u64 (random_time - nextsleeptime / 10) in
      let nextsleeptime := u64 (nextsleeptime + random_time) in
      let nextsleeptime :=
        Z.min nextsleeptime (chunkserverMaxRetrySleepIntervalUS failReqOpt_) in
      let nextsleeptime :=
        Z.max nextsleeptime (chunkserverOPRetryIntervalUS failReqOpt_) in
      Some nextsleeptime
  end.

End Backoff.

(** ** Data model of the retry engine *)

Definition ChunkServerID : Type := Z.
Definition LogicPoolID : Type := Z.
Definition CopysetID : Type := Z.

(** [butil::EndPoint]. *)
Record EndPoint : Type := mkEndPoint { ip : Z; port : Z }.

Record ChunkIDInfo : Type := mkChunkIDInfo {
  cid_ : Z;
  cpid_ : CopysetID;
  lpid_ : LogicPoolID
}.

(** Modelled from the spec: the enumeration [OpType] is declared in
    [client_common.h], which is not among the sources; its members are the
    seven operation kinds of the data model.  The engine only ever compares
    an [OpType] with [OpType::WRITE]. *)
Inductive OpType : Type :=
| READ | WRITE | READ_SNAP | DELETE_SNAP | GET_CHUNK_INFO | CREATE_CLONE
| RECOVER_CHUNK.

Definition OpType_eqb (a b : OpType) : bool :=
  match a, b with
  | READ, READ | WRITE, WRITE | READ_SNAP, READ_SNAP
  | DELETE_SNAP, DELETE_SNAP | GET_CHUNK_INFO, GET_CHUNK_INFO
  | CREATE_CLONE, CREATE_CLONE | RECOVER_CHUNK, RECOVER_CHUNK => true
  | _, _ => false
  end.

(** The numeric values of the enumerators of [CHUNK_OP_STATUS] that the
    closure names.  The enumeration is generated from [proto/chunk.proto];
    the engine depends on the values only through comparisons, so they are
    kept as parameters. *)
Class ChunkOpStatus : Type := mkChunkOpStatus {
  CHUNK_OP_STATUS_SUCCESS : Z;
  CHUNK_OP_STATUS_REDIRECTED : Z;
  CHUNK_OP_STATUS_COPYSET_NOTEXIST : Z;
  CHUNK_OP_STATUS_CHUNK_NOTEXIST : Z;
  CHUNK_OP_STATUS_INVALID_REQUEST : Z;
  CHUNK_OP_STATUS_BACKWARD : Z;
  CHUNK_OP_STATUS_CHUNK_EXIST : Z;
  CHUNK_OP_STATUS_EPOCH_TOO_OLD : Z;
  CHUNK_OP_STATUS_OVERLOAD : Z
}.

(** [brpc::ERPCTIMEDOUT] (brpc's errno.proto) and the system's [ETIMEDOUT]. *)
Definition ERPCTIMEDOUT : Z := 1008.
Definition ETIMEDOUT : Z := 110.

(** [RequestContext]: the description of one chunk operation. *)
Record RequestContext : Type := mkRequestContext {
  idinfo_ : ChunkIDInfo;
  optype_ : OpType;
  fileId_ : Z;
  epoch_ : Z;
  seq_ : Z;
  correctedSeq_ : Z;
  offset_ : Z;
  rawlength_ : Z;
  writeData_ : list Byte.byte;
  readData_ : list Byte.byte;
  sourceInfo_ : Z;
  location_ : string;
  chunksize_ : Z;
  chunkinfodetail_ : list Z;          (* chunkinfodetail_->chunkSn *)
  id_ : Z
}.

(** [RequestClosure] (request_closure.h), with its member initialisers. *)
Record RequestClosure : Type := mkRequestClosure {
  slowRequest_ : bool;
  ownInflight_ : bool;
  errcode_ : Z;
  retryTimes_ : Z;
  nextTimeoutMS_ : Z;
  createdMS_ : Z
}.

Definition RequestClosure_new (now : Z) : RequestClosure :=
  mkRequestClosure false false (-1) 0 0 now.

Definition GetErrorCode (d : RequestClosure) : Z := errcode_ d.

Definition SetFailed (errorCode : Z) (d : RequestClosure) : RequestClosure :=
  mkRequestClosure (slowRequest_ d) (ownInflight_ d) errorCode (retryTimes_ d)
    (nextTimeoutMS_ d) (createdMS_ d).

Definition IncremRetriedTimes (d : RequestClosure) : RequestClosure :=
  mkRequestClosure (slowRequest_ d) (ownInflight_ d) (errcode_ d)
    (u64 (retryTimes_ d + 1)) (nextTimeoutMS_ d) (createdMS_ d).

Definition GetRetriedTimes (d : RequestClosure) : Z := retryTimes_ d.

Definition GetNextTimeoutMS (d : RequestClosure) : Z := nextTimeoutMS_ d.

Definition SetNextTimeOutMS (timeout : Z) (d : RequestClosure)
  : RequestClosure :=
  mkRequestClosure (slowRequest_ d) (ownInflight_ d) (errcode_ d)
    (retryTimes_ d) timeout (createdMS_ d).

Definition IsSlowRequest (d : RequestClosure) : bool := slowRequest_ d.

Definition MarkAsSlowRequest (d : RequestClosure) : RequestClosure :=
  mkRequestClosure true (ownInflight_ d) (errcode_ d) (retryTimes_ d)
    (nextTimeoutMS_ d) (createdMS_ d).

Definition CreatedMS (d : RequestClosure) : Z := createdMS_ d.

(** What the closure reads from the [brpc::Controller] of the attempt.
    [Failed()] is brpc's test that the error code is not zero. *)
Record Controller : Type := mkController {
  ErrorCode : Z;
  response_attachment : list Byte.byte;
  latency_us : Z
}.

Definition Failed (c : Controller) : bool := negb (ErrorCode c =? 0).

(** The generic reply ([ChunkResponse]) and the typed reply of GetChunkInfo
    ([GetChunkInfoResponse]); [redirect] is an optional protobuf field, so
    [has_redirect()] is [redirect <> None]. *)
Record ChunkResponse : Type := mkChunkResponse {
  status : Z;
  redirect : option string
}.

Record GetChunkInfoResponse : Type := mkGetChunkInfoResponse {
  info_status : Z;
  info_redirect : option string;
  chunksn : list Z
}.

(** The concrete closure classes of chunk_closure.cpp. *)
Inductive ClosureKind : Type :=
| WriteChunkClosure | ReadChunkClosure | ReadChunkSnapClosure
| DeleteChunkSnapClosure | GetChunkInfoClosure | CreateCloneChunkClosure
| RecoverChunkClosure.

(** The members of [ClientClosure] itself. *)
Record ClientClosure : Type := mkClientClosure {
  kind : ClosureKind;
  cntl_ : Controller;
  response_ : ChunkResponse;
  chunkinforesponse_ : GetChunkInfoResponse;
  chunkserverID_ : ChunkServerID;
  chunkserverEndPoint_ : EndPoint;
  chunkIdInfo_ : ChunkIDInfo;
  status_ : Z;
  cntlstatus_ : Z;
  retryDirectly_ : bool
}.

Inductive UnstableState : Type :=
| NoUnstable | ChunkServerUnstable | ServerUnstable.

(** The answer of [MetaCache::GetLeader]: its return value and the two
    out-parameters. *)
Record LeaderReply : Type := mkLeaderReply {
  ret_ : Z;
  leaderId : ChunkServerID;
  leaderAddr : EndPoint
}.

(** The interface of the metadata cache (and of its [UnstableHelper]) that
    the closure consumes.  The cache is a collaborator: each call is a
    function of the cache's state, returning the call's result and the
    state after it. *)
Class MetaCacheOps (MC : Type) : Type := mkMetaCacheOps {
  GetLeader : LogicPoolID -> CopysetID -> bool -> MC -> LeaderReply * MC;
  UpdateLeader : LogicPoolID -> CopysetID -> EndPoint -> MC -> Z * MC;
  IsLeaderMayChange : LogicPoolID -> CopysetID -> MC -> bool;
  GetLatestFileSn : MC -> Z;
  SetServerUnstable : string -> MC -> Z * MC;
  SetChunkserverUnstable : ChunkServerID -> MC -> MC;
  IncreTimeout : ChunkServerID -> MC -> MC;
  ClearTimeout : ChunkServerID -> EndPoint -> MC -> MC;
  GetCurrentUnstableState :
    ChunkServerID -> EndPoint -> MC -> UnstableState * MC
}.

(** The requests a closure can hand to the transport ([CopysetClient]) when
    it re-sends, with the arguments of each call. *)
Inductive TransportCall : Type :=
| WriteChunk (idinfo : ChunkIDInfo) (fileId epoch seq : Z)
    (data : list Byte.byte) (offset length : Z) (sourceInfo : Z)
| ReadChunk (idinfo : ChunkIDInfo) (seq offset length : Z) (sourceInfo : Z)
| ReadChunkSnapshot (idinfo : ChunkIDInfo) (seq offset length : Z)
| DeleteChunkSnapshotOrCorrectSn (idinfo : ChunkIDInfo) (correctedSeq : Z)
| GetChunkInfo (idinfo : ChunkIDInfo)
| CreateCloneChunk (idinfo : ChunkIDInfo) (location : string)
    (seq correctedSeq chunksize : Z)
| RecoverChunk (idinfo : ChunkIDInfo) (offset length : Z).

(** The observable calls of one run of the closure. *)
Inductive Event : Type :=
| EvResetSenderIfNotHealth (cs : ChunkServerID)
| EvClearTimeout (cs : ChunkServerID) (ep : EndPoint)
| EvIncreTimeout (cs : ChunkServerID)
| EvSetServerUnstable (ipstr : string)
| EvSetChunkserverUnstable (cs : ChunkServerID)
| EvGetLeader (lp : LogicPoolID) (cp : CopysetID) (refresh : bool)
| EvUpdateLeader (lp : LogicPoolID) (cp : CopysetID) (addr : EndPoint)
| EvLatencyRecord (duration : Z) (op : OpType)
| EvIncremRPCQPSCount (len : Z) (op : OpType)
| EvIncremFailRPCCount (op : OpType)
| EvIncremTimeOutRPCCount (op : OpType)
| EvIncremRedirectRPCCount (op : OpType)
| EvIncremSlowRequestNum
| Ev_bthread_usleep (us : Z)
| EvSend (c : TransportCall)
| EvDoneRun.

(** ** The closure as a state transformer *)

Section Engine.

Context {MC : Type} {cache : MetaCacheOps MC} {codes : ChunkOpStatus}.

(** [PeerAddr::Parse] (its return value and the parsed [addr_]) and
    [butil::ip2str]. *)
Variable Parse : string -> Z * EndPoint.
Variable ip2str : Z -> string.

Variable failReqOpt_ : FailureRequestOption.
Variable backoffParam_ : BackoffParam.

(** Everything one run of the closure can read or write: the closure's own
    members ([self]), the request it serves ([reqDone_] and, through it,
    [reqCtx_]), the metadata cache, and the calls made so far, most recent
    first. *)
Record St : Type := mkSt {
  self : ClientClosure;
  reqDone_ : RequestClosure;
  reqCtx_ : RequestContext;
  metaCache_ : MC;
  trace : list Event
}.

Definition with_self (f : ClientClosure -> ClientClosure) (s : St) : St :=
  mkSt (f (self s)) (reqDone_ s) (reqCtx_ s) (metaCache_ s) (trace s).

Definition with_reqDone (f : RequestClosure -> RequestClosure) (s : St) : St :=
  mkSt (self s) (f (reqDone_ s)) (reqCtx_ s) (metaCache_ s) (trace s).

Definition with_reqCtx (f : RequestContext -> RequestContext) (s : St) : St :=
  mkSt (self s) (reqDone_ s) (f (reqCtx_ s)) (metaCache_ s) (trace s).

Definition with_metaCache (f : MC -> MC) (s : St) : St :=
  mkSt (self s) (reqDone_ s) (reqCtx_ s) (f (metaCache_ s)) (trace s).

Definition log (e : Event) (s : St) : St :=
  mkSt (self s) (reqDone_ s) (reqCtx_ s) (metaCache_ s) (e :: trace s).

(** Assignments to members. *)
Definition set_status_ (v : Z) (c : ClientClosure) : ClientClosure :=
  mkClientClosure (kind c) (cntl_ c) (response_ c) (chunkinforesponse_ c)
    (chunkserverID_ c) (chunkserverEndPoint_ c) (chunkIdInfo_ c) v
    (cntlstatus_ c) (retryDirectly_ c).

Definition set_cntlstatus_ (v : Z) (c : ClientClosure) : ClientClosure :=
  mkClientClosure (kind c) (cntl_ c) (response_ c) (chunkinforesponse_ c)
    (chunkserverID_ c) (chunkserverEndPoint_ c) (chunkIdInfo_ c) (status_ c)
    v (retryDirectly_ c).

Definition set_chunkIdInfo_ (v : ChunkIDInfo) (c : ClientClosure)
  : ClientClosure :=
  mkClientClosure (kind c) (cntl_ c) (response_ c) (chunkinforesponse_ c)
    (chunkserverID_ c) (chunkserverEndPoint_ c) v (status_ c)
    (cntlstatus_ c) (retryDirectly_ c).

Definition set_retryDirectly_ (v : bool) (c : ClientClosure) : ClientClosure :=
  mkClientClosure (kind c) (cntl_ c) (response_ c) (chunkinforesponse_ c)
    (chunkserverID_ c) (chunkserverEndPoint_ c) (chunkIdInfo_ c) (status_ c)
    (cntlstatus_ c) v.

Definition set_seq_ (v : Z) (r : RequestContext) : RequestContext :=
  mkRequestContext (idinfo_ r) (optype_ r) (fileId_ r) (epoch_ r) v
    (correctedSeq_ r) (offset_ r) (rawlength_ r) (writeData_ r) (readData_ r)
    (sourceInfo_ r) (location_ r) (chunksize_ r) (chunkinfodetail_ r) (id_ r).

Definition set_readData_ (v : list Byte.byte) (r : RequestContext)
  : RequestContext :=
  mkRequestContext (idinfo_ r) (optype_ r) (fileId_ r) (epoch_ r) (seq_ r)
    (correctedSeq_ r) (offset_ r) (rawlength_ r) (writeData_ r) v
    (sourceInfo_ r) (location_ r) (chunksize_ r) (chunkinfodetail_ r) (id_ r).

Definition set_chunkinfodetail_ (v : list Z) (r : RequestContext)
  : RequestContext :=
  mkRequestContext (idinfo_ r) (optype_ r) (fileId_ r) (epoch_ r) (seq_ r)
    (correctedSeq_ r) (offset_ r) (rawlength_ r) (writeData_ r) (readData_ r)
    (sourceInfo_ r) (location_ r) (chunksize_ r) v (id_ r).

(** [butil::IOBuf::resize(n, c)]: the first [n] bytes are kept and the
    buffer is extended with copies of [c] up to length [n]. *)
Definition IOBuf_resize (n : Z) (c : Byte.byte) (buf : list Byte.byte)
  : list Byte.byte :=
  (firstn (Z.to_nat n) buf
   ++ repeat c (Z.to_nat n - List.length buf)%nat)%list.

(** *** The monad: state, and [None] where the C++ has no defined result *)

Definition M (A : Type) : Type := St -> option (A * St).

Definition pure {A : Type} (a : A) : M A := fun s => Some (a, s).

Definition bind {A B : Type} (m : M A) (k : A -> M B) : M B :=
  fun s => match m s with
           | Some (a, s') => k a s'
           | None => None
           end.

Definition gets {A : Type} (f : St -> A) : M A := fun s => Some (f s, s).

Definition modify (f : St -> St) : M unit := fun s => Some (tt, f s).

Definition emit (e : Event) : M unit := modify (log e).

Definition lift {A : Type} (o : option A) : M A :=
  fun s => match o with
           | Some a => Some (a, s)
           | None => None
           end.

Definition when (b : bool) (m : M unit) : M unit := if b then m else pure tt.

Notation "x <- m ;; k" := (bind m (fun x => k))
  (at level 61, m at next level, right associativity).
Notation "m ;; k" := (bind m (fun _ => k))
  (at level 61, right associativity).

(** *** Calls to the metadata cache *)

Definition call_GetLeader (lp : LogicPoolID) (cp : CopysetID) (refresh : bool)
  : M LeaderReply :=
  fun s =>
    Some (fst (GetLeader lp cp refresh (metaCache_ s)),
          log (EvGetLeader lp cp refresh)
            (with_metaCache (fun m => snd (GetLeader lp cp refresh m)) s)).

Definition call_UpdateLeader (lp : LogicPoolID) (cp : CopysetID)
  (addr : EndPoint) : M Z :=
  fun s =>
    Some (fst (UpdateLeader lp cp addr (metaCache_ s)),
          log (EvUpdateLeader lp cp addr)
            (with_metaCache (fun m => snd (UpdateLeader lp cp addr m)) s)).

Definition call_SetServerUnstable (ipstr : string) : M Z :=
  fun s =>
    Some (fst (SetServerUnstable ipstr (metaCache_ s)),
          log (EvSetServerUnstable ipstr)
            (with_metaCache (fun m => snd (SetServerUnstable ipstr m)) s)).

Definition call_SetChunkserverUnstable (cs : ChunkServerID) : M unit :=
  modify (with_metaCache (SetChunkserverUnstable cs)) ;;
  emit (EvSetChunkserverUnstable cs).

Definition call_IncreTimeout (cs : ChunkServerID) : M unit :=
  modify (with_metaCache (IncreTimeout cs)) ;;
  emit (EvIncreTimeout cs).

Definition call_ClearTimeout (cs : ChunkServerID) (ep : EndPoint) : M unit :=
  modify (with_metaCache (ClearTimeout cs ep)) ;;
  emit (EvClearTimeout cs ep).

Definition call_GetCurrentUnstableState (cs : ChunkServerID) (ep : EndPoint)
  : M UnstableState :=
  fun s =>
    Some (fst (GetCurrentUnstableState cs ep (metaCache_ s)),
          with_metaCache (fun m => snd (GetCurrentUnstableState cs ep m)) s).

(** *** Virtual members *)

(** [GetResponseStatus()]: the status of the reply the closure class holds. *)
Definition GetResponseStatus (c : ClientClosure) : Z :=
  match kind c with
  | GetChunkInfoClosure => info_status (chunkinforesponse_ c)
  | _ => status (response_ c)
  end.

(** The transport call of each class's [SendRetryRequest]. *)
Definition retry_request (k : ClosureKind) (r : RequestContext)
  : TransportCall :=
  match k with
  | WriteChunkClosure =>
      WriteChunk (idinfo_ r) (fileId_ r) (epoch_ r) (seq_ r) (writeData_ r)
        (offset_ r) (rawlength_ r) (sourceInfo_ r)
  | ReadChunkClosure =>
      ReadChunk (idinfo_ r) (seq_ r) (offset_ r) (rawlength_ r) (sourceInfo_ r)
  | ReadChunkSnapClosure =>
      ReadChunkSnapshot (idinfo_ r) (seq_ r) (offset_ r) (rawlength_ r)
  | DeleteChunkSnapClosure =>
      DeleteChunkSnapshotOrCorrectSn (idinfo_ r) (correctedSeq_ r)
  | GetChunkInfoClosure => GetChunkInfo (idinfo_ r)
  | CreateCloneChunkClosure =>
      CreateCloneChunk (idinfo_ r) (location_ r) (seq_ r) (correctedSeq_ r)
        (chunksize_ r)
  | RecoverChunkClosure =>
      RecoverChunk (idinfo_ r) (offset_ r) (rawlength_ r)
  end.

Definition SendRetryRequest : M unit :=
  fun s => emit (EvSend (retry_request (kind (self s)) (reqCtx_ s))) s.

(** *** Leader resolution *)

(** [void ClientClosure::RefreshLeader()] *)
Definition RefreshLeader : M unit :=
  lp <- gets (fun s => lpid_ (chunkIdInfo_ (self s))) ;;
  cp <- gets (fun s => cpid_ (chunkIdInfo_ (self s))) ;;
  r <- call_GetLeader lp cp true ;;
  if -1 =? ret_ r then pure tt
  else
    cs <- gets (fun s => chunkserverID_ (self s)) ;;
    (* If refresh leader obtains new leader information,
       retry without sleeping before. *)
    modify (with_self (set_retryDirectly_ (negb (leaderId r =? cs)))).

(** [int ClientClosure::UpdateLeaderWithRedirectInfo(const std::string&)] *)
Definition UpdateLeaderWithRedirectInfo (leaderInfo : string) : M Z :=
  let ret := fst (Parse leaderInfo) in
  if negb (ret =? 0) then pure (-1)
  else
    lpId <- gets (fun s => lpid_ (chunkIdInfo_ (self s))) ;;
    cpId <- gets (fun s => cpid_ (chunkIdInfo_ (self s))) ;;
    ret <- call_UpdateLeader lpId cpId (snd (Parse leaderInfo)) ;;
    if negb (ret =? 0) then pure (-1)
    else
      r <- call_GetLeader lpId cpId false ;;
      if negb (ret_ r =? 0) then pure (-1)
      else
        cs <- gets (fun s => chunkserverID_ (self s)) ;;
        modify (with_self (set_retryDirectly_ (negb (leaderId r =? cs)))) ;;
        pure 0.

(** The leader hint of the reply.  [GetChunkInfoClosure] overrides
    [OnRedirected] only to read the hint from its typed reply. *)
Definition redirect_of (c : ClientClosure) : option string :=
  match kind c with
  | GetChunkInfoClosure => info_redirect (chunkinforesponse_ c)
  | _ => redirect (response_ c)
  end.

(** [ClientClosure::OnRedirected] and [GetChunkInfoClosure::OnRedirected] *)
Definition OnRedirected : M unit :=
  hint <- gets (fun s => redirect_of (self s)) ;;
  match hint with
  | Some leaderInfo =>
      ret <- UpdateLeaderWithRedirectInfo leaderInfo ;;
      if ret =? 0 then pure tt else RefreshLeader
  | None => RefreshLeader
  end.

(** [void ClientClosure::OnCopysetNotExist()] *)
Definition OnCopysetNotExist : M unit := RefreshLeader.

(** *** Health update *)

(** [void ClientClosure::ProcessUnstableState()] *)
Definition ProcessUnstableState : M unit :=
  cs <- gets (fun s => chunkserverID_ (self s)) ;;
  ep <- gets (fun s => chunkserverEndPoint_ (self s)) ;;
  state <- call_GetCurrentUnstableState cs ep ;;
  match state with
  | ServerUnstable =>
      ret <- call_SetServerUnstable (ip2str (ip ep)) ;;
      when (negb (ret =? 0)) (call_SetChunkserverUnstable cs)
  | ChunkServerUnstable => call_SetChunkserverUnstable cs
  | NoUnstable => RefreshLeader
  end.

(** [void ClientClosure::OnRpcFailed()] *)
Definition OnRpcFailed : M unit :=
  cs <- gets (fun s => chunkserverID_ (self s)) ;;
  emit (EvResetSenderIfNotHealth cs) ;;
  modify (fun s => with_self (set_status_ (ErrorCode (cntl_ (self s)))) s) ;;
  cntlstatus <- gets (fun s => cntlstatus_ (self s)) ;;
  op <- gets (fun s => optype_ (reqCtx_ s)) ;;
  when (cntlstatus =? ERPCTIMEDOUT)
    (call_IncreTimeout cs ;; emit (EvIncremTimeOutRPCCount op)) ;;
  ProcessUnstableState.

(** *** Outcome handlers *)

(** [void ClientClosure::OnSuccess()] *)
Definition ClientClosure_OnSuccess : M unit :=
  modify (with_reqDone (SetFailed 0)) ;;
  duration <- gets (fun s => latency_us (cntl_ (self s))) ;;
  op <- gets (fun s => optype_ (reqCtx_ s)) ;;
  len <- gets (fun s => rawlength_ (reqCtx_ s)) ;;
  emit (EvLatencyRecord duration op) ;;
  emit (EvIncremRPCQPSCount len op).

(** [OnSuccess] as overridden by the closure classes. *)
Definition OnSuccess : M unit :=
  ClientClosure_OnSuccess ;;
  k <- gets (fun s => kind (self s)) ;;
  match k with
  | ReadChunkClosure | ReadChunkSnapClosure =>
      modify (fun s =>
        with_reqCtx (set_readData_ (response_attachment (cntl_ (self s)))) s)
  | GetChunkInfoClosure =>
      modify (fun s =>
        with_reqCtx (fun r =>
          set_chunkinfodetail_
            (chunkinfodetail_ r ++ chunksn (chunkinforesponse_ (self s))) r) s)
  | _ => pure tt
  end.

(** [void ClientClosure::OnChunkNotExist()] *)
Definition ClientClosure_OnChunkNotExist : M unit :=
  modify (fun s => with_reqDone (SetFailed (status_ (self s))) s) ;;
  duration <- gets (fun s => latency_us (cntl_ (self s))) ;;
  op <- gets (fun s => optype_ (reqCtx_ s)) ;;
  len <- gets (fun s => rawlength_ (reqCtx_ s)) ;;
  emit (EvLatencyRecord duration op) ;;
  emit (EvIncremRPCQPSCount len op).

(** [OnChunkNotExist], overridden by [ReadChunkClosure]. *)
Definition OnChunkNotExist : M unit :=
  ClientClosure_OnChunkNotExist ;;
  k <- gets (fun s => kind (self s)) ;;
  match k with
  | ReadChunkClosure =>
      modify (with_reqDone (SetFailed 0)) ;;
      modify (with_reqCtx (fun r =>
        set_readData_ (IOBuf_resize (rawlength_ r) Byte.x00 (readData_ r)) r))
  | _ => pure tt
  end.

(** [void ClientClosure::OnChunkExist()] *)
Definition OnChunkExist : M unit :=
  modify (fun s => with_reqDone (SetFailed (status_ (self s))) s).

(** [void ClientClosure::OnEpochTooOld()] *)
Definition OnEpochTooOld : M unit :=
  modify (fun s => with_reqDone (SetFailed (status_ (self s))) s).

(** [void ClientClosure::OnInvalidRequest()] *)
Definition OnInvalidRequest : M unit :=
  modify (fun s => with_reqDone (SetFailed (status_ (self s))) s) ;;
  op <- gets (fun s => optype_ (reqCtx_ s)) ;;
  emit (EvIncremFailRPCCount op).

(** [void ClientClosure::OnBackward()] *)
Definition OnBackward : M unit :=
  latestSn <- gets (fun s => GetLatestFileSn (metaCache_ s)) ;;
  modify (with_reqCtx (set_seq_ latestSn)).

(** *** The retry controller *)

(** [void ClientClosure::PreProcessBeforeRetry(int rpcstatus, int cntlstatus)].
    [rnd] is the draw of [std::rand()] that [OverLoadBackOff] makes. *)
Definition PreProcessBeforeRetry (rnd : Z) (rpcstatus cntlstatus : Z)
  : M unit :=
  if (cntlstatus =? ERPCTIMEDOUT) || (cntlstatus =? ETIMEDOUT) then
    retriedTimes <- gets (fun s => GetRetriedTimes (reqDone_ s)) ;;
    leaderMayChange <-
      gets (fun s => IsLeaderMayChange (lpid_ (chunkIdInfo_ (self s)))
                       (cpid_ (chunkIdInfo_ (self s))) (metaCache_ s)) ;;
    nextTimeout <-
      (if (retriedTimes
             <? chunkserverMinRetryTimesForceTimeoutBackoff failReqOpt_)
          && leaderMayChange
       then pure (chunkserverRPCTimeoutMS failReqOpt_)
       else lift (TimeoutBackOff failReqOpt_ backoffParam_ retriedTimes)) ;;
    modify (with_reqDone (SetNextTimeOutMS nextTimeout))
  else if rpcstatus =? CHUNK_OP_STATUS_OVERLOAD then
    retriedTimes <- gets (fun s => GetRetriedTimes (reqDone_ s)) ;;
    nextsleeptime <-
      lift (OverLoadBackOff failReqOpt_ backoffParam_ retriedTimes rnd) ;;
    emit (Ev_bthread_usleep nextsleeptime)
  else
    retryDirectly <- gets (fun s => retryDirectly_ (self s)) ;;
    let nextSleepUS :=
      if negb retryDirectly then
        let nextSleepUS := chunkserverOPRetryIntervalUS failReqOpt_ in
        if rpcstatus =? CHUNK_OP_STATUS_REDIRECTED then nextSleepUS / 10
        else nextSleepUS
      else 0 in
    when (negb (nextSleepUS =? 0)) (emit (Ev_bthread_usleep nextSleepUS)).

(** [void ClientClosure::OnRetry()].  [now] is the value of
    [TimeUtility::GetTimeofDayMs()]. *)
Definition OnRetry (now rnd : Z) : M unit :=
  op <- gets (fun s => optype_ (reqCtx_ s)) ;;
  emit (EvIncremFailRPCCount op) ;;
  retried <- gets (fun s => GetRetriedTimes (reqDone_ s)) ;;
  if retried >=? chunkserverOPMaxRetry failReqOpt_ then
    modify (fun s => with_reqDone (SetFailed (status_ (self s))) s) ;;
    emit EvDoneRun
  else
    slow <- gets (fun s => IsSlowRequest (reqDone_ s)) ;;
    created <- gets (fun s => CreatedMS (reqDone_ s)) ;;
    when (negb slow
          && (u64 (now - created)
                >? chunkserverSlowRequestThresholdMS failReqOpt_))
      (modify (with_reqDone MarkAsSlowRequest) ;; emit EvIncremSlowRequestNum) ;;
    st <- gets (fun s => status_ (self s)) ;;
    cntlstatus <- gets (fun s => cntlstatus_ (self s)) ;;
    PreProcessBeforeRetry rnd st cntlstatus ;;
    SendRetryRequest.

(** The body of [ClientClosure::Run()] up to its last statement: bind the
    members, update the health record, dispatch on the outcome.  The result
    is the local [needRetry]. *)
Definition Run_dispatch : M bool :=
  modify (fun s => with_self (set_chunkIdInfo_ (idinfo_ (reqCtx_ s))) s) ;;
  modify (with_self (set_status_ (-1))) ;;
  modify (fun s => with_self (set_cntlstatus_ (ErrorCode (cntl_ (self s)))) s) ;;
  failed <- gets (fun s => Failed (cntl_ (self s))) ;;
  if failed then
    OnRpcFailed ;; pure true
  else
    (* As long as RPC returns normally, clear the timeout counter *)
    cs <- gets (fun s => chunkserverID_ (self s)) ;;
    ep <- gets (fun s => chunkserverEndPoint_ (self s)) ;;
    call_ClearTimeout cs ep ;;
    modify (fun s => with_self (set_status_ (GetResponseStatus (self s))) s) ;;
    st <- gets (fun s => status_ (self s)) ;;
    op <- gets (fun s => optype_ (reqCtx_ s)) ;;
    if st =? CHUNK_OP_STATUS_SUCCESS then OnSuccess ;; pure false
    else if st =? CHUNK_OP_STATUS_REDIRECTED then
      emit (EvIncremRedirectRPCCount op) ;; OnRedirected ;; pure true
    else if st =? CHUNK_OP_STATUS_COPYSET_NOTEXIST then
      OnCopysetNotExist ;; pure true
    else if st =? CHUNK_OP_STATUS_CHUNK_NOTEXIST then
      OnChunkNotExist ;; pure false
    else if st =? CHUNK_OP_STATUS_INVALID_REQUEST then
      OnInvalidRequest ;; pure false
    else if st =? CHUNK_OP_STATUS_BACKWARD then
      if OpType_eqb op WRITE then OnBackward ;; pure true
      else pure false
    else if st =? CHUNK_OP_STATUS_CHUNK_EXIST then OnChunkExist ;; pure false
    else if st =? CHUNK_OP_STATUS_EPOCH_TOO_OLD then OnEpochTooOld ;; pure false
    else pure true.

(** [void ClientClosure::Run()].  When no retry is needed the completion
    [done_] is run by the guard at the end of the scope; otherwise the guard
    is released and [OnRetry] takes over. *)
Definition Run (now rnd : Z) : M unit :=
  needRetry <- Run_dispatch ;;
  if needRetry then OnRetry now rnd else emit EvDoneRun.

End Engine.

Arguments St MC : clear implicits.
Arguments M MC A : clear implicits.

(** ** Vocabulary of the properties *)

(** [x] clamped to the interval [[lo, hi]]. *)
Definition clamp (lo hi x : Z) : Z :=
  if x <? lo then lo else if hi <? x then hi else x.

(** The scaled back-off value before clamping: [base * 2^min(n, maxPow)]. *)
Definition scaled (base maxPow n : Z) : Z := base * 2 ^ Z.min n maxPow.

(** A configured exponent bound keeps the shift [1 << k] within [int] and the
    product [base * (1 << k)] within [uint64_t]. *)
Definition shift_fits (base maxPow : Z) : Prop :=
  0 <= maxPow < 31 /\ 0 <= base /\ base * 2 ^ maxPow < 2 ^ 64.

(** The enumerators of [CHUNK_OP_STATUS] are pairwise distinct: eight of them
    label the cases of one [switch], and all nine belong to one protobuf
    enumeration. *)
Fixpoint all_distinct (l : list Z) : bool :=
  match l with
  | [] => true
  | x :: l' => negb (existsb (Z.eqb x) l') && all_distinct l'
  end.

Definition distinct_status {codes : ChunkOpStatus} : bool :=
  all_distinct
    [CHUNK_OP_STATUS_SUCCESS; CHUNK_OP_STATUS_REDIRECTED;
     CHUNK_OP_STATUS_COPYSET_NOTEXIST; CHUNK_OP_STATUS_CHUNK_NOTEXIST;
     CHUNK_OP_STATUS_INVALID_REQUEST; CHUNK_OP_STATUS_BACKWARD;
     CHUNK_OP_STATUS_CHUNK_EXIST; CHUNK_OP_STATUS_EPOCH_TOO_OLD;
     CHUNK_OP_STATUS_OVERLOAD].

(** The outcome variants of the design document, its classifier (section
    4.4) and its set of retryable outcomes, written from the document's
    words; they are compared below with what [Run] does. *)
Inductive AttemptOutcome : Type :=
| Success
| RpcFailed (transport_err : Z)
| Redirected (hint : option string)
| CopysetNotExist
| ChunkNotExist
| InvalidRequest
| Backward
| ChunkExist
| EpochTooOld
| Overload
| Unknown (raw_status : Z).

Definition spec_classify {codes : ChunkOpStatus}
  (transport_status app_status : Z) (hint : option string) : AttemptOutcome :=
  if negb (transport_status =? 0) then RpcFailed transport_status
  else if app_status =? CHUNK_OP_STATUS_SUCCESS then Success
  else if app_status =? CHUNK_OP_STATUS_REDIRECTED then Redirected hint
  else if app_status =? CHUNK_OP_STATUS_COPYSET_NOTEXIST then CopysetNotExist
  else if app_status =? CHUNK_OP_STATUS_CHUNK_NOTEXIST then ChunkNotExist
  else if app_status =? CHUNK_OP_STATUS_INVALID_REQUEST then InvalidRequest
  else if app_status =? CHUNK_OP_STATUS_BACKWARD then Backward
  else if app_status =? CHUNK_OP_STATUS_CHUNK_EXIST then ChunkExist
  else if app_status =? CHUNK_OP_STATUS_EPOCH_TOO_OLD then EpochTooOld
  else if app_status =? CHUNK_OP_STATUS_OVERLOAD then Overload
  else Unknown app_status.

Definition spec_retryable (op : OpType) (o : AttemptOutcome) : bool :=
  match o with
  | RpcFailed _ | Redirected _ | CopysetNotExist | Overload | Unknown _ => true
  | Backward => OpType_eqb op WRITE
  | Success | ChunkNotExist | InvalidRequest | ChunkExist | EpochTooOld => false
  end.

(** Events that are neither a re-send, nor the completion, nor a sleep. *)
Definition quiet (e : Event) : bool :=
  match e with
  | EvSend _ | EvDoneRun | Ev_bthread_usleep _ => false
  | _ => true
  end.

Definition is_send (e : Event) : bool :=
  match e with EvSend _ => true | _ => false end.

Definition is_sleep (e : Event) : bool :=
  match e with Ev_bthread_usleep _ => true | _ => false end.

Definition is_done (e : Event) : bool :=
  match e with EvDoneRun => true | _ => false end.

Definition is_refresh (e : Event) : bool :=
  match e with EvGetLeader _ _ true => true | _ => false end.

(** [t] extends the trace [t0] by events that all satisfy [p]. *)
Inductive extends_by (p : Event -> bool) (t0 : list Event)
  : list Event -> Prop :=
| extends_here : extends_by p t0 t0
| extends_cons (e : Event) (t : list Event) :
    p e = true -> extends_by p t0 t -> extends_by p t0 (e :: t).

Definition not_send_or_done (e : Event) : bool :=
  negb (is_send e) && negb (is_done e).

Definition not_send_or_sleep (e : Event) : bool :=
  negb (is_send e) && negb (is_sleep e).

Section Vocabulary.

Context {MC : Type} {cache : MetaCacheOps MC} {codes : ChunkOpStatus}.
Variable Parse : string -> Z * EndPoint.

(** The outcome of the attempt a closure is about to process, and the
    status that [Run] records for it in [status_]. *)
Definition outcome (s : St MC) : AttemptOutcome :=
  spec_classify (ErrorCode (cntl_ (self s))) (GetResponseStatus (self s))
    (redirect_of (self s)).

Definition observed_status (s : St MC) : Z :=
  if Failed (cntl_ (self s)) then ErrorCode (cntl_ (self s))
  else GetResponseStatus (self s).

(** The reply carries a leader hint, the hint parses, and [UpdateLeader] and
    the [GetLeader] after it both return 0. *)
Definition hint_accepted (s : St MC) : bool :=
  match redirect_of (self s) with
  | None => false
  | Some hint =>
      let lp := lpid_ (chunkIdInfo_ (self s)) in
      let cp := cpid_ (chunkIdInfo_ (self s)) in
      let u := UpdateLeader lp cp (snd (Parse hint)) (metaCache_ s) in
      (fst (Parse hint) =? 0) && (fst u =? 0)
      && (ret_ (fst (GetLeader lp cp false (snd u))) =? 0)
  end.

End Vocabulary.

(** *** Vocabulary of the further properties *)

Definition is_slow_metric (e : Event) : bool :=
  match e with EvIncremSlowRequestNum => true | _ => false end.

Definition is_fail_metric (e : Event) : bool :=
  match e with EvIncremFailRPCCount _ => true | _ => false end.

Definition is_leader_call (e : Event) : bool :=
  match e with
  | EvGetLeader _ _ _ | EvUpdateLeader _ _ _ => true
  | _ => false
  end.

Definition is_health_call (e : Event) : bool :=
  match e with
  | EvResetSenderIfNotHealth _ | EvIncreTimeout _ | EvClearTimeout _ _
  | EvSetServerUnstable _ | EvSetChunkserverUnstable _ => true
  | _ => false
  end.

(** The number of events of [l] that satisfy [p]. *)
Definition count (p : Event -> bool) (l : list Event) : nat :=
  List.length (filter p l).

(** The shifts of both back-off functions are defined at retry count [n]. *)
Definition backoff_defined (bp : BackoffParam) (n : Z) : Prop :=
  0 <= maxTimeoutPow bp < 31 /\ 0 <= maxOverloadPow bp < 31 /\ 0 <= n.

(** The test of [OnRetry] that marks a request as slow. *)
Definition marks_slow (opt : FailureRequestOption) (now : Z)
  (d : RequestClosure) : bool :=
  negb (IsSlowRequest d)
  && (u64 (now - CreatedMS d) >? chunkserverSlowRequestThresholdMS opt).

(** [r'] describes the same operation as [r]: everything but the sequence
    number and the two result sinks is equal. *)
Definition same_operation (r r' : RequestContext) : Prop :=
  idinfo_ r' = idinfo_ r /\ optype_ r' = optype_ r /\
  fileId_ r' = fileId_ r /\ epoch_ r' = epoch_ r /\
  correctedSeq_ r' = correctedSeq_ r /\ offset_ r' = offset_ r /\
  rawlength_ r' = rawlength_ r /\ writeData_ r' = writeData_ r /\
  sourceInfo_ r' = sourceInfo_ r /\ location_ r' = location_ r /\
  chunksize_ r' = chunksize_ r /\ id_ r' = id_ r.

Definition is_metric (e : Event) : bool := is_fail_metric e || is_slow_metric e.

(** A reply status that is none of the nine enumerators the closure names. *)
Definition unknown_status {codes : ChunkOpStatus} (st : Z) : Prop :=
  st <> CHUNK_OP_STATUS_SUCCESS /\ st <> CHUNK_OP_STATUS_REDIRECTED /\
  st <> CHUNK_OP_STATUS_COPYSET_NOTEXIST /\
  st <> CHUNK_OP_STATUS_CHUNK_NOTEXIST /\
  st <> CHUNK_OP_STATUS_INVALID_REQUEST /\ st <> CHUNK_OP_STATUS_BACKWARD /\
  st <> CHUNK_OP_STATUS_CHUNK_EXIST /\ st <> CHUNK_OP_STATUS_EPOCH_TOO_OLD /\
  st <> CHUNK_OP_STATUS_OVERLOAD.

(** The number of [Increment] calls of [ops] minus the number of its
    [Decrement] calls. *)
Definition net_requests (ops : list Throttle.Op) : Z :=
  fold_left (fun z o => match o with
                        | Throttle.OpIncrement => z + 1
                        | Throttle.OpDecrement => z - 1
                        end) ops 0.

(** ** Concrete inputs *)

(** Configurations used to run the calculator: the shipped defaults. *)
Definition default_failReqOpt : FailureRequestOption :=
  mkFailureRequestOption 3 100000 1000 8000 8000000 5 45000.

Definition default_backoffParam : BackoffParam := mkBackoffParam 3 6.

(** A stand-in for the collaborators, to run the closure on concrete
    inputs: a cache that knows one leader, an authority that may or may not
    answer, and nine distinct status values.  In the stand-in the id of a
    chunkserver is the port it listens on. *)
Module Sample.

Record Cache : Type := mkCache {
  cached_leader : ChunkServerID;
  authority : option ChunkServerID;
  latest_sn : Z;
  may_change : bool;
  health : UnstableState;
  timeouts : Z
}.

Definition ep0 : EndPoint := mkEndPoint 0 0.

Definition cache_GetLeader (lp : LogicPoolID) (cp : CopysetID) (refresh : bool)
  (m : Cache) : LeaderReply * Cache :=
  if refresh then
    match authority m with
    | Some l =>
        (mkLeaderReply 0 l ep0,
         mkCache l (authority m) (latest_sn m) (may_change m) (health m)
           (timeouts m))
    | None => (mkLeaderReply (-1) 0 ep0, m)
    end
  else (mkLeaderReply 0 (cached_leader m) ep0, m).

Definition cache_UpdateLeader (lp : LogicPoolID) (cp : CopysetID)
  (addr : EndPoint) (m : Cache) : Z * Cache :=
  (0, mkCache (port addr) (authority m) (latest_sn m) (may_change m)
        (health m) (timeouts m)).

#[export] Instance cache_ops : MetaCacheOps Cache := {|
  GetLeader := cache_GetLeader;
  UpdateLeader := cache_UpdateLeader;
  IsLeaderMayChange := fun _ _ m => may_change m;
  GetLatestFileSn := latest_sn;
  SetServerUnstable := fun _ m => (0, m);
  SetChunkserverUnstable := fun _ m => m;
  IncreTimeout := fun _ m =>
    mkCache (cached_leader m) (authority m) (latest_sn m) (may_change m)
      (health m) (timeouts m + 1);
  ClearTimeout := fun _ _ m =>
    mkCache (cached_leader m) (authority m) (latest_sn m) (may_change m)
      (health m) 0;
  GetCurrentUnstableState := fun _ _ m => (health m, m)
|}.

#[export] Instance sample_codes : ChunkOpStatus := {|
  CHUNK_OP_STATUS_SUCCESS := 0;
  CHUNK_OP_STATUS_REDIRECTED := 1;
  CHUNK_OP_STATUS_COPYSET_NOTEXIST := 6;
  CHUNK_OP_STATUS_CHUNK_NOTEXIST := 7;
  CHUNK_OP_STATUS_INVALID_REQUEST := 4;
  CHUNK_OP_STATUS_BACKWARD := 10;
  CHUNK_OP_STATUS_CHUNK_EXIST := 11;
  CHUNK_OP_STATUS_EPOCH_TOO_OLD := 12;
  CHUNK_OP_STATUS_OVERLOAD := 9
|}.

(** A hint parses unless it is empty, and then names the peer at port
    8200. *)
Definition Parse (leaderInfo : string) : Z * EndPoint :=
  if String.eqb leaderInfo EmptyString then (-1, ep0)
  else (0, mkEndPoint 1 8200).

Definition ip2str (_ : Z) : string := "10.0.0.1"%string.

Definition cache0 : Cache := mkCache 1 (Some 2) 9 true NoUnstable 0.

Definition idinfo0 : ChunkIDInfo := mkChunkIDInfo 100 20 3.

(** A request of the given kind for 8192 bytes at offset 0, sequence 7. *)
Definition request (op : OpType) : RequestContext :=
  mkRequestContext idinfo0 op 1 1 7 0 0 8192 [] [] 0 EmptyString 0 [] 42.

(** A closure of class [k] for a reply with transport status [err], reply
    status [st] and leader hint [hint], sent to chunkserver 1. *)
Definition closure (k : ClosureKind) (err st : Z) (hint : option string)
  : ClientClosure :=
  mkClientClosure k (mkController err [] 5) (mkChunkResponse st hint)
    (mkGetChunkInfoResponse st hint []) 1 ep0 idinfo0 0 0 false.

(** The state in which such a closure runs when the request, created at
    time 0, has been sent [sends] times: the sender counts each send with
    [IncremRetriedTimes]. *)
Definition state (k : ClosureKind) (op : OpType) (err st : Z)
  (hint : option string) (sends : nat) : St Cache :=
  mkSt (closure k err st hint)
    (Nat.iter sends IncremRetriedTimes (RequestClosure_new 0))
    (request op) cache0 [].

End Sample.
(** * Properties *)

(** ** Machine arithmetic *)

Lemma u64_small z : 0 <= z < 2 ^ 64 -> u64 z = z.
Proof. intros H. unfold u64. now apply Z.mod_small. Qed.

Lemma u64_range z : 0 <= u64 z < 2 ^ 64.
Proof. unfold u64. apply Z.mod_pos_bound. lia. Qed.

Lemma shl_one_Some k : 0 <= k < 31 -> shl_one k = Some (2 ^ k).
Proof.
  intros [H0 H1]. unfold shl_one.
  apply Z.leb_le in H0. apply Z.ltb_lt in H1. now rewrite H0, H1.
Qed.

Lemma pow2_small k : 0 <= k < 31 -> 0 < 2 ^ k < 2 ^ 64.
Proof.
  intros H. split.
  - apply Z.pow_pos_nonneg; lia.
  - apply Z.pow_lt_mono_r; lia.
Qed.

Lemma scaled_bounds base maxPow n :
  shift_fits base maxPow -> 0 <= n ->
  base <= scaled base maxPow n <= base * 2 ^ maxPow.
Proof.
  intros (HP & Hb & _) Hn. unfold scaled.
  assert (H1 : 1 <= 2 ^ Z.min n maxPow).
  { change 1 with (2 ^ 0). apply Z.pow_le_mono_r; lia. }
  assert (H2 : 2 ^ Z.min n maxPow <= 2 ^ maxPow).
  { apply Z.pow_le_mono_r; lia. }
  split; nia.
Qed.

Lemma scaled_mono base maxPow n m :
  shift_fits base maxPow -> 0 <= n <= m ->
  scaled base maxPow n <= scaled base maxPow m.
Proof.
  intros (HP & Hb & _) Hnm. unfold scaled.
  apply Z.mul_le_mono_nonneg_l; [lia|].
  apply Z.pow_le_mono_r; lia.
Qed.

Lemma clamp_max_min lo hi x :
  lo <= hi -> Z.max (Z.min x hi) lo = clamp lo hi x.
Proof.
  intros H. unfold clamp.
  destruct (Z.ltb_spec x lo); [lia|].
  destruct (Z.ltb_spec hi x); lia.
Qed.

(** ** The back-off calculator *)

Section BackoffFacts.

Variable opt : FailureRequestOption.
Variable bp : BackoffParam.

(** The value [TimeoutBackOff] computes when nothing overflows. *)
Lemma TimeoutBackOff_eq n :
  shift_fits (chunkserverRPCTimeoutMS opt) (maxTimeoutPow bp) -> 0 <= n ->
  TimeoutBackOff opt bp n =
    Some (Z.max (Z.min (scaled (chunkserverRPCTimeoutMS opt)
                          (maxTimeoutPow bp) n)
                   (chunkserverMaxRPCTimeoutMS opt))
            (chunkserverRPCTimeoutMS opt)).
Proof.
  intros Hfit Hn.
  pose proof (scaled_bounds _ _ n Hfit Hn) as Hs.
  destruct Hfit as (HP & Hb & Hov).
  unfold TimeoutBackOff.
  rewrite shl_one_Some by lia. cbv zeta.
  rewrite (u64_small (2 ^ _)) by (pose proof (pow2_small (Z.min n (maxTimeoutPow bp))); lia).
  fold (scaled (chunkserverRPCTimeoutMS opt) (maxTimeoutPow bp) n).
  rewrite u64_small by lia. reflexivity.
Qed.

(** The value [OverLoadBackOff] computes when nothing but the intermediate
    subtraction overflows: the jitter is the signed number
    [rnd mod (s/5 + 1) - s/10]. *)
Lemma OverLoadBackOff_eq n rnd :
  let s := scaled (chunkserverOPRetryIntervalUS opt) (maxOverloadPow bp) n in
  shift_fits (chunkserverOPRetryIntervalUS opt) (maxOverloadPow bp) ->
  s + s / 5 < 2 ^ 64 -> 0 <= n -> 0 <= rnd < 2 ^ 31 ->
  OverLoadBackOff opt bp n rnd =
    Some (Z.max (Z.min (s + (rnd mod (s / 5 + 1) - s / 10))
                   (chunkserverMaxRetrySleepIntervalUS opt))
            (chunkserverOPRetryIntervalUS opt)).
Proof.
  intros s Hfit Hsum Hn Hr.
  pose proof (scaled_bounds _ _ n Hfit Hn) as Hs. fold s in Hs.
  destruct Hfit as (HP & Hb & Hov).
  unfold OverLoadBackOff.
  rewrite shl_one_Some by lia. cbv zeta.
  rewrite (u64_small (2 ^ _)) by (pose proof (pow2_small (Z.min n (maxOverloadPow bp))); lia).
  fold (scaled (chunkserverOPRetryIntervalUS opt) (maxOverloadPow bp) n).
  fold s.
  assert (H5 : 0 <= s / 5) by (apply Z.div_pos; lia).
  assert (H10 : 0 <= s / 10 <= s).
  { split; [apply Z.div_pos; lia|]. apply Z.div_le_upper_bound; lia. }
  rewrite (u64_small s) by lia.
  rewrite (u64_small rnd) by lia.
  pose proof (Z.mod_pos_bound rnd (s / 5 + 1) ltac:(lia)) as Hm.
  unfold u64. rewrite Zplus_mod_idemp_r.
  rewrite Z.mod_small by lia. reflexivity.
Qed.

End BackoffFacts.

(** Whatever the draw and whatever overflows, the last two statements of
    [OverLoadBackOff] put its result between the base interval and the
    maximum, as soon as the two are in order. *)
Lemma OverLoadBackOff_in_range opt bp n rnd v :
  chunkserverOPRetryIntervalUS opt <= chunkserverMaxRetrySleepIntervalUS opt ->
  OverLoadBackOff opt bp n rnd = Some v ->
  chunkserverOPRetryIntervalUS opt <= v
  <= chunkserverMaxRetrySleepIntervalUS opt.
Proof.
  intros Hle. unfold OverLoadBackOff.
  destruct (shl_one _); [|discriminate].
  cbv zeta. intros [= <-]. lia.
Qed.

(** When the base timeout is configured above the maximum, the last
    statement of [TimeoutBackOff] wins and the result is the base timeout. *)
Lemma TimeoutBackOff_base_above_max opt bp n t :
  chunkserverMaxRPCTimeoutMS opt < chunkserverRPCTimeoutMS opt ->
  TimeoutBackOff opt bp n = Some t ->
  t = chunkserverRPCTimeoutMS opt.
Proof.
  intros Hlt. unfold TimeoutBackOff.
  destruct (shl_one _); [|discriminate].
  cbv zeta. intros [= <-]. lia.
Qed.

(** C4 (as amended).  With a configuration in which the shift does not
    overflow and the base timeout does not exceed the maximum timeout,
    [TimeoutBackOff n] is [base * 2^min(n, maxTimeoutPow)] clamped to
    [[base, max]]; it lies in that interval and is nondecreasing in [n]. *)
Theorem TimeoutBackOff_clamped :
  forall (opt : FailureRequestOption) (bp : BackoffParam) (n : Z),
    shift_fits (chunkserverRPCTimeoutMS opt) (maxTimeoutPow bp) ->
    chunkserverRPCTimeoutMS opt <= chunkserverMaxRPCTimeoutMS opt ->
    0 <= n ->
    exists t,
      TimeoutBackOff opt bp n = Some t /\
      t = clamp (chunkserverRPCTimeoutMS opt) (chunkserverMaxRPCTimeoutMS opt)
            (scaled (chunkserverRPCTimeoutMS opt) (maxTimeoutPow bp) n) /\
      chunkserverRPCTimeoutMS opt <= t <= chunkserverMaxRPCTimeoutMS opt /\
      forall m, n <= m ->
        exists t', TimeoutBackOff opt bp m = Some t' /\ t <= t'.
Proof.
  intros opt bp n Hfit Hle Hn.
  eexists. split; [apply TimeoutBackOff_eq; assumption|].
  split; [apply clamp_max_min; assumption|].
  split; [lia|].
  intros m Hm. eexists. split; [apply TimeoutBackOff_eq; [assumption|lia]|].
  pose proof (scaled_mono _ _ n m Hfit ltac:(lia)). lia.
Qed.

Lemma TimeoutBackOff_clamped_witness :
  exists t,
    TimeoutBackOff default_failReqOpt default_backoffParam 2 = Some t /\
    t = clamp 1000 8000 (scaled 1000 3 2) /\
    1000 <= t <= 8000 /\
    forall m, 2 <= m ->
      exists t', TimeoutBackOff default_failReqOpt default_backoffParam m
                 = Some t' /\ t <= t'.
Proof.
  apply (TimeoutBackOff_clamped default_failReqOpt default_backoffParam 2).
  - unfold shift_fits. simpl. lia.
  - simpl. lia.
  - lia.
Defined.

(** C4, the statement as written fails: the shift does not overflow, yet
    with the base timeout configured above the maximum the result, 1000, is
    above the maximum, 500. *)
Lemma TimeoutBackOff_exceeds_max :
  let opt := mkFailureRequestOption 3 100000 1000 500 8000000 5 45000 in
  let bp := mkBackoffParam 0 0 in
  shift_fits (chunkserverRPCTimeoutMS opt) (maxTimeoutPow bp) /\
  TimeoutBackOff opt bp 0 = Some 1000 /\
  ~ (chunkserverRPCTimeoutMS opt <= 1000 <= chunkserverMaxRPCTimeoutMS opt).
Proof.
  cbv zeta. split; [|split].
  - unfold shift_fits. simpl. lia.
  - reflexivity.
  - simpl. lia.
Qed.

(** C5 (as amended).  With a configuration in which nothing but the
    intermediate subtraction overflows and the base interval does not exceed
    the maximum sleep, [OverLoadBackOff n] is [s + j] clamped to
    [[base, max]], where [s = base * 2^min(n, maxOverloadPow)] and the jitter
    [j] is the signed number [rnd mod (s/5 + 1) - s/10]: the wrap-around of
    the subtraction cancels.  The jitter lies in [[-s/10, s/5 - s/10]] with
    integer quotients, which is at most one above [s/10]. *)
Theorem OverLoadBackOff_jitter_clamped :
  forall (opt : FailureRequestOption) (bp : BackoffParam) (n rnd : Z),
    shift_fits (chunkserverOPRetryIntervalUS opt) (maxOverloadPow bp) ->
    scaled (chunkserverOPRetryIntervalUS opt) (maxOverloadPow bp) n
    + scaled (chunkserverOPRetryIntervalUS opt) (maxOverloadPow bp) n / 5
    < 2 ^ 64 ->
    chunkserverOPRetryIntervalUS opt
    <= chunkserverMaxRetrySleepIntervalUS opt ->
    0 <= n -> 0 <= rnd < 2 ^ 31 ->
    exists s j v,
      s = scaled (chunkserverOPRetryIntervalUS opt) (maxOverloadPow bp) n /\
      j = rnd mod (s / 5 + 1) - s / 10 /\
      OverLoadBackOff opt bp n rnd = Some v /\
      v = clamp (chunkserverOPRetryIntervalUS opt)
            (chunkserverMaxRetrySleepIntervalUS opt) (s + j) /\
      - (s / 10) <= j <= s / 5 - s / 10 /\
      j <= s / 10 + 1 /\
      chunkserverOPRetryIntervalUS opt <= v
      <= chunkserverMaxRetrySleepIntervalUS opt.
Proof.
  intros opt bp n rnd Hfit Hsum Hle Hn Hr.
  pose proof (scaled_bounds _ _ n Hfit Hn) as Hs.
  set (s := scaled _ _ n) in *.
  assert (H5 : 0 <= s / 5) by (apply Z.div_pos; destruct Hfit; lia).
  pose proof (Z.mod_pos_bound rnd (s / 5 + 1) ltac:(lia)) as Hm.
  exists s, (rnd mod (s / 5 + 1) - s / 10). eexists.
  split; [reflexivity|]. split; [reflexivity|].
  split; [apply OverLoadBackOff_eq; assumption|].
  split; [apply clamp_max_min; assumption|].
  split; [lia|]. split; [|lia].
  pose proof (Z.div_mod s 5 ltac:(lia)).
  pose proof (Z.div_mod s 10 ltac:(lia)).
  pose proof (Z.mod_pos_bound s 5 ltac:(lia)).
  pose proof (Z.mod_pos_bound s 10 ltac:(lia)).
  lia.
Qed.

Lemma OverLoadBackOff_jitter_clamped_witness :
  exists s j v,
    s = scaled 100000 6 3 /\
    j = 12345 mod (s / 5 + 1) - s / 10 /\
    OverLoadBackOff default_failReqOpt default_backoffParam 3 12345 = Some v /\
    v = clamp 100000 8000000 (s + j) /\
    - (s / 10) <= j <= s / 5 - s / 10 /\
    j <= s / 10 + 1 /\
    100000 <= v <= 8000000.
Proof.
  apply (OverLoadBackOff_jitter_clamped
           default_failReqOpt default_backoffParam 3 12345).
  - unfold shift_fits. simpl. lia.
  - vm_compute. reflexivity.
  - simpl. lia.
  - lia.
  - lia.
Defined.

(** C5, the statement as written fails: with a base interval of 5 us the
    scaled sleep is [s = 5], the draw 1 gives a sleep of 6 us, and no jitter
    within a tenth of [s] accounts for it. *)
Lemma OverLoadBackOff_jitter_exceeds_tenth :
  let opt := mkFailureRequestOption 3 5 1000 8000 1000 5 45000 in
  let bp := mkBackoffParam 3 7 in
  let s := scaled (chunkserverOPRetryIntervalUS opt) (maxOverloadPow bp) 0 in
  s = 5 /\
  OverLoadBackOff opt bp 0 1 = Some 6 /\
  ~ (exists j, 10 * Z.abs j <= s /\
               6 = clamp (chunkserverOPRetryIntervalUS opt)
                     (chunkserverMaxRetrySleepIntervalUS opt) (s + j)).
Proof.
  cbv zeta. split; [reflexivity|]. split; [reflexivity|].
  intros (j & Hj & Hc).
  change (scaled _ _ 0) with 5 in *. simpl in Hc.
  assert (j = 0) by lia. subst j. discriminate Hc.
Qed.

(** ** The inflight throttle *)

Lemma run_maxInflightRequest maxInflight ops :
  Throttle.maxInflightRequest_ (Throttle.run maxInflight ops) = maxInflight.
Proof.
  unfold Throttle.run.
  assert (H : forall t,
             Throttle.maxInflightRequest_ (fold_left Throttle.apply_op ops t)
             = Throttle.maxInflightRequest_ t).
  { induction ops as [|o ops IH]; intros t; [reflexivity|].
    simpl. rewrite IH. now destruct o. }
  now rewrite H.
Qed.

(** C10.  After any sequence of [Increment] and [Decrement] calls on a
    throttle constructed with limit [maxInflight], [IsOverLoad] answers true
    exactly when the inflight count is strictly above the limit; a count
    equal to the limit is not an overload. *)
Theorem IsOverLoad_iff_exceeds :
  forall (maxInflight : Z) (ops : list Throttle.Op),
    let t := Throttle.run maxInflight ops in
    (Throttle.IsOverLoad t = true
     <-> maxInflight < Throttle.inflightRequestCount_ t) /\
    (Throttle.inflightRequestCount_ t = maxInflight ->
     Throttle.IsOverLoad t = false).
Proof.
  intros maxInflight ops t. unfold Throttle.IsOverLoad.
  replace (Throttle.maxInflightRequest_ t) with maxInflight
    by (symmetry; apply run_maxInflightRequest).
  destruct (Z.geb_spec maxInflight (Throttle.inflightRequestCount_ t)) as [H|H].
  - split; [split; [discriminate|lia]|reflexivity].
  - split; [split; [lia|reflexivity]|lia].
Qed.

Example IsOverLoad_at_limit :
  Throttle.IsOverLoad
    (Throttle.run 2 [Throttle.OpIncrement; Throttle.OpIncrement]) = false
  /\ Throttle.IsOverLoad
       (Throttle.run 2 [Throttle.OpIncrement; Throttle.OpIncrement;
                        Throttle.OpIncrement]) = true.
Proof. split; reflexivity. Qed.

(** ** Further properties of the back-off calculator and of the throttle *)

(** X14.  Whatever the configuration, and even when the product
    [base * 2^k] wraps around, a timeout computed by [TimeoutBackOff] is
    never below the base timeout and never above the larger of the base and
    the maximum timeout; it is computed for every retry count as long as the
    exponent bound is below 31, and it no longer depends on the retry count
    once that has reached [maxTimeoutPow]. *)
Theorem TimeoutBackOff_always_bounded :
  forall (opt : FailureRequestOption) (bp : BackoffParam) (n : Z),
    0 <= maxTimeoutPow bp < 31 -> 0 <= n ->
    exists t,
      TimeoutBackOff opt bp n = Some t /\
      chunkserverRPCTimeoutMS opt <= t
      <= Z.max (chunkserverRPCTimeoutMS opt) (chunkserverMaxRPCTimeoutMS opt)
      /\ (maxTimeoutPow bp <= n ->
          TimeoutBackOff opt bp (maxTimeoutPow bp) = Some t).
Proof.
  intros opt bp n HP Hn. unfold TimeoutBackOff.
  rewrite shl_one_Some by lia. cbv zeta.
  eexists. split; [reflexivity|]. split; [lia|].
  intros Hle. rewrite Z.min_id, (Z.min_r n (maxTimeoutPow bp)) by assumption.
  rewrite shl_one_Some by lia. reflexivity.
Qed.

(** X15.  The same for [OverLoadBackOff]: for every draw, and whatever wraps
    around, the sleep is never below the retry interval and never above the
    larger of the retry interval and the maximum sleep; and with the same
    draw it no longer depends on the retry count once that has reached
    [maxOverloadPow]. *)
Theorem OverLoadBackOff_always_bounded :
  forall (opt : FailureRequestOption) (bp : BackoffParam) (n rnd : Z),
    0 <= maxOverloadPow bp < 31 -> 0 <= n ->
    exists v,
      OverLoadBackOff opt bp n rnd = Some v /\
      chunkserverOPRetryIntervalUS opt <= v
      <= Z.max (chunkserverOPRetryIntervalUS opt)
           (chunkserverMaxRetrySleepIntervalUS opt)
      /\ (maxOverloadPow bp <= n ->
          OverLoadBackOff opt bp (maxOverloadPow bp) rnd = Some v).
Proof.
  intros opt bp n rnd HP Hn. unfold OverLoadBackOff.
  rewrite shl_one_Some by lia. cbv zeta.
  eexists. split; [reflexivity|]. split; [lia|].
  intros Hle. rewrite Z.min_id, (Z.min_r n (maxOverloadPow bp)) by assumption.
  rewrite shl_one_Some by lia. reflexivity.
Qed.

Lemma run_count (maxInflight : Z) (ops : list Throttle.Op) :
  Throttle.inflightRequestCount_ (Throttle.run maxInflight ops)
  = u64 (net_requests ops).
Proof.
  unfold Throttle.run, net_requests.
  assert (H : forall t z,
             Throttle.inflightRequestCount_ t = u64 z ->
             Throttle.inflightRequestCount_ (fold_left Throttle.apply_op ops t)
             = u64 (fold_left
                      (fun z o => match o with
                                  | Throttle.OpIncrement => z + 1
                                  | Throttle.OpDecrement => z - 1
                                  end) ops z)).
  { induction ops as [|o ops IH]; intros t z Ht; [exact Ht|].
    simpl. apply IH. destruct o; simpl; rewrite Ht; unfold u64.
    - now rewrite Zplus_mod_idemp_l.
    - now rewrite Zminus_mod_idemp_l. }
  apply H. reflexivity.
Qed.

(** X16.  After any sequence of calls on a throttle with limit
    [maxInflight], the inflight count is the number of [Increment] calls
    minus the number of [Decrement] calls, reduced modulo [2^64], and the
    throttle reports an overload exactly when the limit is below that
    number. *)
Theorem throttle_counts_net_requests :
  forall (maxInflight : Z) (ops : list Throttle.Op),
    Throttle.inflightRequestCount_ (Throttle.run maxInflight ops)
    = (net_requests ops) mod 2 ^ 64 /\
    Throttle.IsOverLoad (Throttle.run maxInflight ops)
    = (maxInflight <? (net_requests ops) mod 2 ^ 64).
Proof.
  intros maxInflight ops. split; [apply run_count|].
  unfold Throttle.IsOverLoad.
  rewrite run_maxInflightRequest, run_count. unfold u64.
  rewrite Z.geb_leb, Z.ltb_antisym.
  now destruct (_ <=? _).
Qed.

(** X17.  A [Decrement] that no [Increment] has preceded is not refused: the
    count wraps around to [2^64 - 1], and the throttle then reports an
    overload for every limit below that. *)
Theorem unmatched_Decrement_overloads :
  forall (maxInflight : Z) (ops : list Throttle.Op),
    net_requests ops = -1 ->
    maxInflight < 2 ^ 64 - 1 ->
    Throttle.inflightRequestCount_ (Throttle.run maxInflight ops)
    = 2 ^ 64 - 1 /\
    Throttle.IsOverLoad (Throttle.run maxInflight ops) = true.
Proof.
  intros maxInflight ops Hnet Hmax.
  assert (Hc : Throttle.inflightRequestCount_ (Throttle.run maxInflight ops)
               = 2 ^ 64 - 1).
  { rewrite run_count, Hnet. reflexivity. }
  split; [exact Hc|].
  unfold Throttle.IsOverLoad. rewrite run_maxInflightRequest, Hc.
  destruct (Z.geb_spec maxInflight (2 ^ 64 - 1)); [lia|reflexivity].
Qed.

(** X18.  On a throttle whose count is a [uint64_t], [Increment] and
    [Decrement] undo each other, also across the wrap-around. *)
Theorem Increment_Decrement_inverse :
  forall (t : Throttle.InflightThrottle),
    0 <= Throttle.inflightRequestCount_ t < 2 ^ 64 ->
    Throttle.Decrement (Throttle.Increment t) = t /\
    Throttle.Increment (Throttle.Decrement t) = t.
Proof.
  intros [c m] Hc. cbn [Throttle.inflightRequestCount_] in Hc.
  unfold Throttle.Decrement, Throttle.Increment, u64.
  cbn [Throttle.inflightRequestCount_ Throttle.maxInflightRequest_].
  rewrite Zminus_mod_idemp_l, Zplus_mod_idemp_l.
  replace (c + 1 - 1) with c by lia. replace (c - 1 + 1) with c by lia.
  rewrite Z.mod_small by lia. split; reflexivity.
Qed.

(** ** Traces *)

Lemma extends_by_app p t0 t :
  extends_by p t0 t -> exists evs, t = evs ++ t0 /\ forallb p evs = true.
Proof.
  induction 1 as [|e t He _ (evs & -> & Hq)].
  - now exists [].
  - exists (e :: evs). simpl. now rewrite He, Hq.
Qed.

Lemma quiet_no_send evs :
  forallb quiet evs = true -> existsb is_send evs = false.
Proof.
  induction evs as [|e evs IH]; [reflexivity|].
  simpl. intros [He Hq]%andb_prop. rewrite (IH Hq).
  now destruct e.
Qed.

(** ** Buffers *)

Lemma Forall_firstn {A : Type} (P : A -> Prop) (n : nat) (l : list A) :
  Forall P l -> Forall P (firstn n l).
Proof.
  intros H. revert n. induction H as [|x l Hx _ IH]; intros [|n]; simpl;
    constructor; auto.
Qed.

Lemma IOBuf_resize_length n c buf :
  0 <= n -> Z.of_nat (List.length (IOBuf_resize n c buf)) = n.
Proof.
  intros Hn. unfold IOBuf_resize.
  rewrite length_app, length_firstn, repeat_length. lia.
Qed.

Lemma IOBuf_resize_zero n buf :
  Forall (eq Byte.x00) buf -> Forall (eq Byte.x00) (IOBuf_resize n Byte.x00 buf).
Proof.
  intros H. unfold IOBuf_resize. apply Forall_app. split.
  - now apply Forall_firstn.
  - apply Forall_forall. intros x Hx. symmetry. eapply repeat_spec; eassumption.
Qed.

(** ** The retry engine *)

Section EngineFacts.

Context {MC : Type} {cache : MetaCacheOps MC} {codes : ChunkOpStatus}.
Variable Parse : string -> Z * EndPoint.
Variable ip2str : Z -> string.
Variable opt : FailureRequestOption.
Variable bp : BackoffParam.

Ltac munfold :=
  unfold call_GetLeader, call_UpdateLeader, call_SetServerUnstable,
    call_SetChunkserverUnstable, call_IncreTimeout, call_ClearTimeout,
    call_GetCurrentUnstableState, SendRetryRequest, when;
  unfold emit, lift;
  unfold bind, pure, gets, modify;
  unfold with_self, with_reqDone, with_reqCtx, with_metaCache, log.

Ltac msimpl :=
  cbn [self reqDone_ reqCtx_ metaCache_ trace fst snd
       kind cntl_ response_ chunkinforesponse_ chunkserverID_
       chunkserverEndPoint_ chunkIdInfo_ status_ cntlstatus_ retryDirectly_
       set_status_ set_cntlstatus_ set_chunkIdInfo_ set_retryDirectly_
       slowRequest_ ownInflight_ errcode_ retryTimes_ nextTimeoutMS_
       createdMS_ SetFailed SetNextTimeOutMS MarkAsSlowRequest
       GetRetriedTimes IsSlowRequest CreatedMS GetErrorCode GetNextTimeoutMS
       idinfo_ optype_ fileId_ epoch_ seq_ correctedSeq_ offset_ rawlength_
       writeData_ readData_ sourceInfo_ location_ chunksize_
       chunkinfodetail_ id_ set_seq_ set_readData_ set_chunkinfodetail_] in *.

Ltac mcases :=
  repeat match goal with
         | |- context [if ?c then _ else _] => destruct c eqn:?; msimpl
         | |- context [match ?x with
                       | NoUnstable => _
                       | ChunkServerUnstable => _
                       | ServerUnstable => _
                       end] => destruct x eqn:?; msimpl
         | |- context [match ?x with Some _ => _ | None => _ end] =>
             lazymatch type of x with
             | option string => destruct x eqn:?; msimpl
             end
         | |- context [match ?x with
                       | WriteChunkClosure => _
                       | ReadChunkClosure => _
                       | ReadChunkSnapClosure => _
                       | DeleteChunkSnapClosure => _
                       | GetChunkInfoClosure => _
                       | CreateCloneChunkClosure => _
                       | RecoverChunkClosure => _
                       end] => destruct x eqn:?; msimpl
         end.

(** Turns [distinct_status = true] into the disequalities it stands for. *)
Ltac use_distinct H :=
  unfold distinct_status in H; cbn [all_distinct existsb] in H;
  repeat match goal with
         | H' : _ && _ = true |- _ => apply andb_prop in H'; destruct H'
         | H' : negb _ = true |- _ => apply negb_true_iff in H'
         | H' : _ || _ = false |- _ => apply orb_false_elim in H'; destruct H'
         | H' : (_ =? _) = false |- _ => apply Z.eqb_neq in H'
         end.

(** Closes a case in which two distinct enumerators were found equal. *)
Ltac absurd_status :=
  exfalso;
  repeat match goal with
         | H : (_ =? _) = true |- _ => apply Z.eqb_eq in H
         | H : (_ =? _) = false |- _ => apply Z.eqb_neq in H
         end;
  congruence.

(** Decides the comparisons between enumerators that the context settles. *)
Ltac decide_status :=
  repeat (msimpl;
          match goal with
          | |- context [(0 =? ERPCTIMEDOUT) || (0 =? ETIMEDOUT)] =>
              change ((0 =? ERPCTIMEDOUT) || (0 =? ETIMEDOUT)) with false
          | |- context [?a =? ?a] => rewrite (Z.eqb_refl a)
          | |- context [?a =? ?b] =>
              let H := fresh in
              assert (H : (a =? b) = false)
                by (apply Z.eqb_neq; congruence);
              rewrite H; clear H
          end);
  msimpl.

Lemma RefreshLeader_eq (s : St MC) :
  let lp := lpid_ (chunkIdInfo_ (self s)) in
  let cp := cpid_ (chunkIdInfo_ (self s)) in
  let g := GetLeader lp cp true (metaCache_ s) in
  RefreshLeader s =
    Some (tt,
          mkSt
            (if -1 =? ret_ (fst g) then self s
             else set_retryDirectly_
                    (negb (leaderId (fst g) =? chunkserverID_ (self s)))
                    (self s))
            (reqDone_ s) (reqCtx_ s) (snd g)
            (EvGetLeader lp cp true :: trace s)).
Proof.
  cbv zeta. unfold RefreshLeader. munfold. msimpl.
  mcases; reflexivity.
Qed.

Lemma UpdateLeaderWithRedirectInfo_eq (leaderInfo : string) (s : St MC) :
  let lp := lpid_ (chunkIdInfo_ (self s)) in
  let cp := cpid_ (chunkIdInfo_ (self s)) in
  let addr := snd (Parse leaderInfo) in
  let u := UpdateLeader lp cp addr (metaCache_ s) in
  let g := GetLeader lp cp false (snd u) in
  UpdateLeaderWithRedirectInfo Parse leaderInfo s =
    if negb (fst (Parse leaderInfo) =? 0) then Some (-1, s)
    else if negb (fst u =? 0) then
      Some (-1, mkSt (self s) (reqDone_ s) (reqCtx_ s) (snd u)
                  (EvUpdateLeader lp cp addr :: trace s))
    else if negb (ret_ (fst g) =? 0) then
      Some (-1, mkSt (self s) (reqDone_ s) (reqCtx_ s) (snd g)
                  (EvGetLeader lp cp false :: EvUpdateLeader lp cp addr
                   :: trace s))
    else
      Some (0, mkSt (set_retryDirectly_
                       (negb (leaderId (fst g) =? chunkserverID_ (self s)))
                       (self s))
                 (reqDone_ s) (reqCtx_ s) (snd g)
                 (EvGetLeader lp cp false :: EvUpdateLeader lp cp addr
                  :: trace s)).
Proof.
  cbv zeta. unfold UpdateLeaderWithRedirectInfo. munfold. msimpl.
  destruct s; mcases; reflexivity.
Qed.

(** What [Run] does before its retry test: it always returns, its verdict
    [needRetry] is the design document's "retryable", and it neither
    re-sends, nor completes, nor sleeps. *)
Lemma Run_dispatch_spec (s : St MC) :
  exists s1,
    Run_dispatch Parse ip2str s
    = Some (spec_retryable (optype_ (reqCtx_ s)) (outcome s), s1) /\
    retryTimes_ (reqDone_ s1) = retryTimes_ (reqDone_ s) /\
    status_ (self s1) = observed_status s /\
    cntlstatus_ (self s1) = ErrorCode (cntl_ (self s)) /\
    kind (self s1) = kind (self s) /\
    extends_by quiet (trace s) (trace s1) /\
    (spec_retryable (optype_ (reqCtx_ s)) (outcome s) = true ->
     readData_ (reqCtx_ s1) = readData_ (reqCtx_ s)).
Proof.
  unfold Run_dispatch, outcome, observed_status, spec_classify, OnRpcFailed,
    ProcessUnstableState, OnRedirected, OnCopysetNotExist, OnSuccess,
    ClientClosure_OnSuccess, OnChunkNotExist, ClientClosure_OnChunkNotExist,
    OnInvalidRequest, OnBackward, OnChunkExist, OnEpochTooOld,
    UpdateLeaderWithRedirectInfo, RefreshLeader.
  munfold. unfold GetResponseStatus, redirect_of, Failed. msimpl.
  destruct (negb (ErrorCode (cntl_ (self s)) =? 0)) eqn:Hfail; msimpl.
  - mcases; (eexists; split; [reflexivity|]; msimpl;
             repeat split; repeat constructor).
  - mcases; cbn [spec_retryable];
      try match goal with H : OpType_eqb _ _ = _ |- _ => rewrite H end;
      (eexists; split; [reflexivity|]; msimpl;
       repeat split; try assumption; try discriminate; repeat constructor).
Qed.

Lemma OnRetry_exhausted (s : St MC) (now rnd : Z) :
  chunkserverOPMaxRetry opt <= GetRetriedTimes (reqDone_ s) ->
  OnRetry opt bp now rnd s =
    Some (tt,
          mkSt (self s) (SetFailed (status_ (self s)) (reqDone_ s))
            (reqCtx_ s) (metaCache_ s)
            (EvDoneRun :: EvIncremFailRPCCount (optype_ (reqCtx_ s))
             :: trace s)).
Proof.
  intros H. unfold OnRetry. munfold. msimpl.
  destruct (Z.geb_spec (GetRetriedTimes (reqDone_ s))
              (chunkserverOPMaxRetry opt)); [reflexivity|lia].
Qed.

Lemma OnRetry_reqCtx (s s' : St MC) (now rnd : Z) :
  OnRetry opt bp now rnd s = Some (tt, s') -> reqCtx_ s' = reqCtx_ s.
Proof.
  unfold OnRetry, PreProcessBeforeRetry, TimeoutBackOff, OverLoadBackOff.
  munfold. msimpl.
  mcases;
    repeat match goal with
           | |- context [shl_one ?k] => destruct (shl_one k); msimpl
           end;
    intros H; inversion H; reflexivity.
Qed.

(** The read buffer is written only when a request completes: whenever the
    outcome of the attempt is retryable, [Run] leaves it as it was. *)
Lemma Run_retryable_keeps_readData (s s' : St MC) (now rnd : Z) :
  spec_retryable (optype_ (reqCtx_ s)) (outcome s) = true ->
  Run Parse ip2str opt bp now rnd s = Some (tt, s') ->
  readData_ (reqCtx_ s') = readData_ (reqCtx_ s).
Proof.
  intros Hretry.
  destruct (Run_dispatch_spec s) as (s1 & Hd & _ & _ & _ & _ & _ & Hbuf).
  unfold Run, bind. rewrite Hd, Hretry. intros HR.
  apply OnRetry_reqCtx in HR. rewrite HR. now apply Hbuf.
Qed.

(** C1.  [Run] re-sends only when the retry count is below
    [chunkserverOPMaxRetry] and the outcome of the attempt is retryable; and
    when the outcome is retryable but the retry count has reached
    [chunkserverOPMaxRetry], [Run] returns with the error code set to the
    status of the attempt, the completion run, and nothing re-sent. *)
Theorem retry_only_within_budget :
  forall (s : St MC) (now rnd : Z),
    (forall s' evs,
        Run Parse ip2str opt bp now rnd s = Some (tt, s') ->
        trace s' = evs ++ trace s ->
        existsb is_send evs = true ->
        GetRetriedTimes (reqDone_ s) < chunkserverOPMaxRetry opt /\
        spec_retryable (optype_ (reqCtx_ s)) (outcome s) = true) /\
    (spec_retryable (optype_ (reqCtx_ s)) (outcome s) = true ->
     chunkserverOPMaxRetry opt <= GetRetriedTimes (reqDone_ s) ->
     exists s' evs,
       Run Parse ip2str opt bp now rnd s = Some (tt, s') /\
       GetErrorCode (reqDone_ s') = observed_status s /\
       trace s' = EvDoneRun :: evs ++ trace s /\
       forallb quiet evs = true).
Proof.
  intros s now rnd.
  destruct (Run_dispatch_spec s) as (s1 & Hd & Hr & Hst & _ & _ & Hq & _).
  apply extends_by_app in Hq. destruct Hq as (evs1 & Ht1 & Hq1).
  unfold Run, bind. rewrite Hd. split.
  - intros s' evs HR Ht Hsend.
    destruct (spec_retryable _ _).
    + split; [|reflexivity].
      destruct (Z.lt_ge_cases (GetRetriedTimes (reqDone_ s))
                  (chunkserverOPMaxRetry opt)) as [Hlt|Hge]; [assumption|].
      exfalso. rewrite OnRetry_exhausted in HR
        by (unfold GetRetriedTimes in *; rewrite Hr; assumption).
      injection HR as <-. cbn [trace] in Ht. rewrite Ht1 in Ht.
      change (EvDoneRun :: EvIncremFailRPCCount (optype_ (reqCtx_ s1))
              :: evs1 ++ trace s)
        with ((EvDoneRun :: EvIncremFailRPCCount (optype_ (reqCtx_ s1))
               :: evs1) ++ trace s) in Ht.
      apply app_inv_tail in Ht. subst evs.
      cbn [existsb is_send orb] in Hsend.
      rewrite (quiet_no_send _ Hq1) in Hsend. discriminate.
    + exfalso. unfold emit, modify, log in HR. injection HR as <-.
      cbn [trace] in Ht. rewrite Ht1 in Ht.
      change (EvDoneRun :: evs1 ++ trace s)
        with ((EvDoneRun :: evs1) ++ trace s) in Ht.
      apply app_inv_tail in Ht. subst evs.
      cbn [existsb is_send orb] in Hsend.
      rewrite (quiet_no_send _ Hq1) in Hsend. discriminate.
  - intros Hretry Hge. rewrite Hretry.
    rewrite OnRetry_exhausted
      by (unfold GetRetriedTimes in *; rewrite Hr; assumption).
    eexists. exists (EvIncremFailRPCCount (optype_ (reqCtx_ s1)) :: evs1).
    split; [reflexivity|]. cbn [reqDone_ trace GetErrorCode SetFailed errcode_].
    split; [assumption|]. split; [now rewrite Ht1|].
    cbn [forallb quiet andb]. assumption.
Qed.

(** C9.  When the leader hint of a redirected reply does not parse,
    [UpdateLeaderWithRedirectInfo] returns -1 and leaves the whole state as
    it was: the metadata cache is untouched and no call is recorded, in
    particular none to [UpdateLeader].  [OnRedirected] then does exactly what
    [RefreshLeader] does: it queries the authority for the leader. *)
Theorem redirect_hint_parse_failure :
  forall (s : St MC) (leaderInfo : string),
    redirect_of (self s) = Some leaderInfo ->
    fst (Parse leaderInfo) <> 0 ->
    UpdateLeaderWithRedirectInfo Parse leaderInfo s = Some (-1, s) /\
    OnRedirected Parse s = RefreshLeader s /\
    exists s',
      OnRedirected Parse s = Some (tt, s') /\
      trace s'
      = EvGetLeader (lpid_ (chunkIdInfo_ (self s)))
          (cpid_ (chunkIdInfo_ (self s))) true :: trace s /\
      metaCache_ s'
      = snd (GetLeader (lpid_ (chunkIdInfo_ (self s)))
               (cpid_ (chunkIdInfo_ (self s))) true (metaCache_ s)).
Proof.
  intros s leaderInfo Hhint Hparse.
  apply Z.eqb_neq in Hparse.
  assert (HU : UpdateLeaderWithRedirectInfo Parse leaderInfo s = Some (-1, s)).
  { rewrite UpdateLeaderWithRedirectInfo_eq. cbv zeta. now rewrite Hparse. }
  assert (HO : OnRedirected Parse s = RefreshLeader s).
  { unfold OnRedirected, bind, gets. rewrite Hhint, HU. reflexivity. }
  split; [assumption|]. split; [assumption|].
  rewrite HO, RefreshLeader_eq. cbv zeta.
  eexists. split; [reflexivity|]. split; reflexivity.
Qed.

(** C7.  [OnRedirected], run by a closure whose [retryDirectly_] still has
    its initial value.  A hint that parses is handed to [UpdateLeader], as
    the first call made.  If the hint is accepted ([UpdateLeader] and the
    [GetLeader] after it return 0), these are the only two calls, so the
    authority is not queried, and [retryDirectly_] tells whether the leader
    read back differs from the chunkserver that answered.  Otherwise
    [OnRedirected] continues as [RefreshLeader] does: the last call is the
    query to the authority, and [retryDirectly_] is set in the same way from
    its answer, or stays false when the query returns -1. *)
Theorem OnRedirected_leader_resolution :
  forall (s : St MC),
    retryDirectly_ (self s) = false ->
    let lp := lpid_ (chunkIdInfo_ (self s)) in
    let cp := cpid_ (chunkIdInfo_ (self s)) in
    let cs := chunkserverID_ (self s) in
    exists s',
      OnRedirected Parse s = Some (tt, s') /\
      (forall hint,
          redirect_of (self s) = Some hint -> fst (Parse hint) = 0 ->
          exists evs,
            trace s'
            = evs ++ EvUpdateLeader lp cp (snd (Parse hint)) :: trace s) /\
      (hint_accepted Parse s = true ->
       exists hint,
         redirect_of (self s) = Some hint /\
         let addr := snd (Parse hint) in
         let u := UpdateLeader lp cp addr (metaCache_ s) in
         let g := GetLeader lp cp false (snd u) in
         trace s'
         = EvGetLeader lp cp false :: EvUpdateLeader lp cp addr :: trace s /\
         metaCache_ s' = snd g /\
         retryDirectly_ (self s') = negb (leaderId (fst g) =? cs)) /\
      (hint_accepted Parse s = false ->
       exists s0,
         OnRedirected Parse s = RefreshLeader s0 /\
         self s0 = self s /\
         extends_by (fun e => negb (is_refresh e)) (trace s) (trace s0) /\
         let g := GetLeader lp cp true (metaCache_ s0) in
         trace s' = EvGetLeader lp cp true :: trace s0 /\
         metaCache_ s' = snd g /\
         retryDirectly_ (self s')
         = if -1 =? ret_ (fst g) then false
           else negb (leaderId (fst g) =? cs)).
Proof.
  intros s Hrd lp cp cs. subst lp cp cs.
  unfold hint_accepted, OnRedirected, bind, gets.
  destruct (redirect_of (self s)) as [hint|] eqn:Hhint.
  - rewrite UpdateLeaderWithRedirectInfo_eq. cbv zeta.
    destruct (fst (Parse hint) =? 0) eqn:Hp; cbn [negb andb].
    + destruct (fst (UpdateLeader _ _ _ _) =? 0) eqn:Hu; cbn [negb andb].
      * destruct (ret_ (fst (GetLeader _ _ false _)) =? 0) eqn:Hg;
          cbn [negb andb].
        -- change (0 =? 0) with true. cbv iota. unfold pure.
           eexists. split; [reflexivity|]. msimpl.
           split; [|split].
           ++ intros h [= <-] _.
              now exists [EvGetLeader (lpid_ (chunkIdInfo_ (self s)))
                            (cpid_ (chunkIdInfo_ (self s))) false].
           ++ intros _. exists hint. repeat split; reflexivity.
           ++ discriminate.
        -- change (-1 =? 0) with false. cbv iota.
           match goal with |- context [RefreshLeader ?X] => set (s0 := X) end.
           rewrite (RefreshLeader_eq s0). cbv zeta.
           eexists. split; [reflexivity|].
           split; [|split].
           ++ intros h [= <-] _. subst s0. msimpl.
              now exists [EvGetLeader (lpid_ (chunkIdInfo_ (self s)))
                            (cpid_ (chunkIdInfo_ (self s))) true;
                          EvGetLeader (lpid_ (chunkIdInfo_ (self s)))
                            (cpid_ (chunkIdInfo_ (self s))) false].
           ++ discriminate.
           ++ intros _. exists s0. rewrite (RefreshLeader_eq s0). cbv zeta.
              split; [reflexivity|]. subst s0. msimpl.
              split; [reflexivity|]. split; [repeat constructor|].
              split; [reflexivity|]. split; [reflexivity|].
              destruct (-1 =? _); [assumption|reflexivity].
      * change (-1 =? 0) with false. cbv iota.
        match goal with |- context [RefreshLeader ?X] => set (s0 := X) end.
        rewrite (RefreshLeader_eq s0). cbv zeta.
        eexists. split; [reflexivity|].
        split; [|split].
        -- intros h [= <-] _. subst s0. msimpl.
           now exists [EvGetLeader (lpid_ (chunkIdInfo_ (self s)))
                         (cpid_ (chunkIdInfo_ (self s))) true].
        -- discriminate.
        -- intros _. exists s0. rewrite (RefreshLeader_eq s0). cbv zeta.
           split; [reflexivity|]. subst s0. msimpl.
           split; [reflexivity|]. split; [repeat constructor|].
           split; [reflexivity|]. split; [reflexivity|].
           destruct (-1 =? _); [assumption|reflexivity].
    + change (-1 =? 0) with false. cbv iota.
      rewrite RefreshLeader_eq. cbv zeta.
      eexists. split; [reflexivity|]. msimpl.
      split; [|split].
      * intros h [= <-] Hp'. apply Z.eqb_neq in Hp. contradiction.
      * discriminate.
      * intros _. exists s. rewrite RefreshLeader_eq. cbv zeta.
        split; [reflexivity|]. split; [reflexivity|].
        split; [constructor|].
        split; [reflexivity|]. split; [reflexivity|].
        destruct (-1 =? _); [assumption|reflexivity].
  - rewrite RefreshLeader_eq. cbv zeta.
    eexists. split; [reflexivity|]. msimpl.
    split; [|split].
    + discriminate.
    + discriminate.
    + intros _. exists s. rewrite RefreshLeader_eq. cbv zeta.
      split; [reflexivity|]. split; [reflexivity|].
      split; [constructor|].
      split; [reflexivity|]. split; [reflexivity|].
      destruct (-1 =? _); [assumption|reflexivity].
Qed.

Lemma PreProcessBeforeRetry_timeout (s : St MC) (rnd rpcstatus cntlstatus : Z) :
  cntlstatus = ERPCTIMEDOUT \/ cntlstatus = ETIMEDOUT ->
  PreProcessBeforeRetry opt bp rnd rpcstatus cntlstatus s =
    if (GetRetriedTimes (reqDone_ s)
          <? chunkserverMinRetryTimesForceTimeoutBackoff opt)
       && IsLeaderMayChange (lpid_ (chunkIdInfo_ (self s)))
            (cpid_ (chunkIdInfo_ (self s))) (metaCache_ s)
    then Some (tt, with_reqDone (SetNextTimeOutMS (chunkserverRPCTimeoutMS opt)) s)
    else match TimeoutBackOff opt bp (GetRetriedTimes (reqDone_ s)) with
         | Some t => Some (tt, with_reqDone (SetNextTimeOutMS t) s)
         | None => None
         end.
Proof.
  intros Hc. unfold PreProcessBeforeRetry.
  replace ((cntlstatus =? ERPCTIMEDOUT) || (cntlstatus =? ETIMEDOUT))
    with true by (destruct Hc as [-> | ->]; reflexivity).
  munfold. msimpl.
  destruct (_ && _); [reflexivity|].
  destruct (TimeoutBackOff _ _ _); reflexivity.
Qed.

(** C6.  When the previous attempt ended in a transport timeout,
    [PreProcessBeforeRetry] stores the next timeout [t] in the request and
    does nothing else, where [t] is the base timeout if the retry count is
    below [chunkserverMinRetryTimesForceTimeoutBackoff] and the leader may
    change, and the value of [TimeoutBackOff] at the retry count otherwise.
    If the retry budget is not exhausted, [OnRetry] then re-sends with that
    timeout, without any sleep before the re-send. *)
Theorem timeout_retry_next_timeout :
  forall (s : St MC) (now rnd rpcstatus t : Z),
    cntlstatus_ (self s) = ERPCTIMEDOUT \/ cntlstatus_ (self s) = ETIMEDOUT ->
    (if (GetRetriedTimes (reqDone_ s)
           <? chunkserverMinRetryTimesForceTimeoutBackoff opt)
        && IsLeaderMayChange (lpid_ (chunkIdInfo_ (self s)))
             (cpid_ (chunkIdInfo_ (self s))) (metaCache_ s)
     then t = chunkserverRPCTimeoutMS opt
     else TimeoutBackOff opt bp (GetRetriedTimes (reqDone_ s)) = Some t) ->
    PreProcessBeforeRetry opt bp rnd rpcstatus (cntlstatus_ (self s)) s
    = Some (tt, with_reqDone (SetNextTimeOutMS t) s) /\
    (GetRetriedTimes (reqDone_ s) < chunkserverOPMaxRetry opt ->
     exists s' tr,
       OnRetry opt bp now rnd s = Some (tt, s') /\
       GetNextTimeoutMS (reqDone_ s') = t /\
       trace s' = EvSend (retry_request (kind (self s)) (reqCtx_ s)) :: tr /\
       extends_by not_send_or_sleep (trace s) tr).
Proof.
  intros s now rnd rpcstatus t Hc Ht.
  assert (HP : forall rpc (s0 : St MC),
             self s0 = self s -> metaCache_ s0 = metaCache_ s ->
             GetRetriedTimes (reqDone_ s0) = GetRetriedTimes (reqDone_ s) ->
             PreProcessBeforeRetry opt bp rnd rpc (cntlstatus_ (self s)) s0
             = Some (tt, with_reqDone (SetNextTimeOutMS t) s0)).
  { intros rpc s0 Hs Hm Hr.
    rewrite PreProcessBeforeRetry_timeout by assumption.
    rewrite Hs, Hm, Hr.
    destruct (_ && _); [now subst t|]. now rewrite Ht. }
  split; [now apply HP|].
  intros Hlt. unfold OnRetry. munfold. msimpl.
  destruct (Z.geb_spec (GetRetriedTimes (reqDone_ s))
              (chunkserverOPMaxRetry opt)); [lia|].
  match goal with |- context [if ?c then _ else _] => destruct c end; msimpl;
    rewrite HP by reflexivity; unfold with_reqDone; msimpl;
    (eexists; eexists; split; [reflexivity|]; msimpl;
     split; [reflexivity|]; split; [reflexivity|]; repeat constructor).
Qed.

(** The plain path of [PreProcessBeforeRetry], as a function of its two
    arguments: when [cntlstatus] is not a timeout code and [rpcstatus] is
    not the number of OVERLOAD, the sleep is 0 if [retryDirectly_] is set,
    and otherwise [chunkserverOPRetryIntervalUS], divided by 10 if
    [rpcstatus] is the number of REDIRECTED; [bthread_usleep] is called
    with it exactly when it is not zero, and nothing else changes. *)
Lemma plain_retry_sleep :
  forall (s : St MC) (rnd rpcstatus cntlstatus : Z),
    cntlstatus <> ERPCTIMEDOUT ->
    cntlstatus <> ETIMEDOUT ->
    rpcstatus <> CHUNK_OP_STATUS_OVERLOAD ->
    let nextSleepUS :=
      if retryDirectly_ (self s) then 0
      else if rpcstatus =? CHUNK_OP_STATUS_REDIRECTED
           then chunkserverOPRetryIntervalUS opt / 10
           else chunkserverOPRetryIntervalUS opt in
    PreProcessBeforeRetry opt bp rnd rpcstatus cntlstatus s
    = Some (tt, if nextSleepUS =? 0 then s
                else log (Ev_bthread_usleep nextSleepUS) s).
Proof.
  intros s rnd rpcstatus cntlstatus H1 H2 H3. cbv zeta.
  apply Z.eqb_neq in H1, H2, H3.
  unfold PreProcessBeforeRetry. rewrite H1, H2, H3. cbn [orb].
  munfold. msimpl.
  destruct (retryDirectly_ (self s)); cbn [negb].
  - change (0 =? 0) with true. destruct s; reflexivity.
  - destruct (rpcstatus =? CHUNK_OP_STATUS_REDIRECTED);
      destruct (_ =? 0); destruct s; reflexivity.
Qed.

Ltac unfold_Run :=
  unfold Run, Run_dispatch, OnRetry, PreProcessBeforeRetry, OnRpcFailed,
    ProcessUnstableState, OnRedirected, OnCopysetNotExist, OnSuccess,
    ClientClosure_OnSuccess, OnChunkNotExist, ClientClosure_OnChunkNotExist,
    OnInvalidRequest, OnBackward, OnChunkExist, OnEpochTooOld,
    UpdateLeaderWithRedirectInfo, RefreshLeader;
  munfold.

Lemma not_Failed (c : Controller) : Failed c = false -> ErrorCode c = 0.
Proof.
  unfold Failed. intros H. apply negb_false_iff in H. now apply Z.eqb_eq.
Qed.

(** C2.  A [ReadChunkClosure] whose reply has transport status OK and
    status CHUNK_NOTEXIST, for a request whose read buffer holds no non-zero
    byte (it is empty until the request completes): [Run] returns, the error
    code is 0, the read buffer has the requested length and holds only zero
    bytes, the completion is run and nothing is re-sent. *)
Theorem read_hole_on_chunk_not_exist :
  forall (s : St MC) (now rnd : Z),
    distinct_status = true ->
    kind (self s) = ReadChunkClosure ->
    Failed (cntl_ (self s)) = false ->
    status (response_ (self s)) = CHUNK_OP_STATUS_CHUNK_NOTEXIST ->
    0 <= rawlength_ (reqCtx_ s) ->
    Forall (eq Byte.x00) (readData_ (reqCtx_ s)) ->
    exists s',
      Run Parse ip2str opt bp now rnd s = Some (tt, s') /\
      GetErrorCode (reqDone_ s') = 0 /\
      Z.of_nat (List.length (readData_ (reqCtx_ s')))
      = rawlength_ (reqCtx_ s) /\
      Forall (eq Byte.x00) (readData_ (reqCtx_ s')) /\
      exists tr,
        trace s' = EvDoneRun :: tr /\ extends_by quiet (trace s) tr.
Proof.
  intros s now rnd Hd Hk Hf Hst Hlen Hzero.
  use_distinct Hd.
  unfold_Run. unfold GetResponseStatus. msimpl.
  rewrite Hf. msimpl. rewrite Hk, Hst. decide_status. rewrite Hk. msimpl.
  eexists. split; [reflexivity|]. msimpl.
  split; [reflexivity|].
  split; [now apply IOBuf_resize_length|].
  split; [now apply IOBuf_resize_zero|].
  eexists. split; [reflexivity|]. repeat constructor.
Qed.

(** C3.  A reply with transport status OK and status BACKWARD to a request
    that is not a WRITE.  The run is terminal: it clears the timeout record
    of the chunkserver and runs the completion, and it neither re-sends nor
    sleeps nor touches the request.  The error code of the request is not
    set on this path ([SetFailed] is not called, unlike in every other
    terminal handler): the request closure is left exactly as it was, so
    the completion sees the error code the request had before the reply,
    -1 for a request that has not completed before, and not BACKWARD. *)
Theorem backward_non_write_error_code_unset :
  forall (s : St MC) (now rnd : Z),
    distinct_status = true ->
    Failed (cntl_ (self s)) = false ->
    GetResponseStatus (self s) = CHUNK_OP_STATUS_BACKWARD ->
    optype_ (reqCtx_ s) <> WRITE ->
    exists s',
      Run Parse ip2str opt bp now rnd s = Some (tt, s') /\
      reqDone_ s' = reqDone_ s /\
      GetErrorCode (reqDone_ s') = GetErrorCode (reqDone_ s) /\
      reqCtx_ s' = reqCtx_ s /\
      trace s'
      = EvDoneRun
        :: EvClearTimeout (chunkserverID_ (self s))
             (chunkserverEndPoint_ (self s))
        :: trace s.
Proof.
  intros s now rnd Hd Hf Hst Hop.
  use_distinct Hd.
  pose proof (not_Failed _ Hf) as He.
  unfold_Run. unfold GetResponseStatus in *. msimpl.
  rewrite Hf. msimpl. rewrite ?Hst, ?He.
  decide_status.
  destruct (OpType_eqb (optype_ (reqCtx_ s)) WRITE) eqn:Hw.
  - exfalso. apply Hop.
    destruct (optype_ (reqCtx_ s)); (reflexivity || discriminate).
  - decide_status.
    eexists. split; [reflexivity|]. msimpl.
    repeat split; reflexivity.
Qed.

(** X19.  A reply with transport status OK and status BACKWARD to a WRITE
    request.  The sequence number of the request becomes
    [GetLatestFileSn()] of the metadata cache and no other field of the
    request changes; the request then goes through the retry gate: if the
    retry count is below [chunkserverOPMaxRetry] it is re-sent with the new
    sequence number, and otherwise the error code is set to BACKWARD and the
    completion is run. *)
Theorem backward_write_rewrites_seq :
  forall (s : St MC) (now rnd : Z),
    distinct_status = true ->
    Failed (cntl_ (self s)) = false ->
    GetResponseStatus (self s) = CHUNK_OP_STATUS_BACKWARD ->
    optype_ (reqCtx_ s) = WRITE ->
    exists s',
      Run Parse ip2str opt bp now rnd s = Some (tt, s') /\
      reqCtx_ s' = set_seq_ (GetLatestFileSn (metaCache_ s')) (reqCtx_ s) /\
      (GetRetriedTimes (reqDone_ s) < chunkserverOPMaxRetry opt ->
       exists tr,
         trace s' = EvSend (retry_request (kind (self s)) (reqCtx_ s')) :: tr
         /\ extends_by not_send_or_done (trace s) tr) /\
      (chunkserverOPMaxRetry opt <= GetRetriedTimes (reqDone_ s) ->
       GetErrorCode (reqDone_ s') = CHUNK_OP_STATUS_BACKWARD /\
       exists tr,
         trace s' = EvDoneRun :: tr /\ extends_by quiet (trace s) tr).
Proof.
  intros s now rnd Hd Hf Hst Hw.
  use_distinct Hd.
  pose proof (not_Failed _ Hf) as He.
  unfold_Run. unfold GetResponseStatus in *. msimpl.
  rewrite Hf. msimpl. rewrite ?Hst, ?He.
  decide_status.
  rewrite Hw. cbn [OpType_eqb]. decide_status.
  destruct (Z.geb_spec (GetRetriedTimes (reqDone_ s))
              (chunkserverOPMaxRetry opt)) as [Hge|Hlt]; msimpl.
  - eexists. split; [reflexivity|]. msimpl.
    split; [reflexivity|].
    split; [intros Hx; exfalso; clear - Hx Hge; lia|].
    intros _. split; [reflexivity|].
    eexists. split; [reflexivity|]. repeat constructor.
  - match goal with |- context [if ?c then _ else _] => destruct c end;
      decide_status; mcases;
      (eexists; split; [reflexivity|]; msimpl;
       split; [reflexivity|];
       split; [|intros Hx; exfalso; clear - Hx Hlt; lia];
       intros _; eexists; split; [reflexivity|]; repeat constructor).
Qed.

(** ** Further properties of the retry engine *)

(** Splits a computed trace [l] into the events added to [t0]. *)
Ltac added_events t0 l :=
  lazymatch l with
  | t0 => constr:(@nil Event)
  | ?e :: ?l' => let r := added_events t0 l' in constr:(e :: r)
  end.

Ltac solve_added :=
  lazymatch goal with
  | |- ?l = ?evs ++ ?t0 =>
      let r := added_events t0 l in unify evs r; reflexivity
  end.

Lemma extends_by_weaken (p q : Event -> bool) t0 t :
  (forall e, p e = true -> q e = true) ->
  extends_by p t0 t -> extends_by q t0 t.
Proof.
  intros Hpq H. induction H; constructor; auto.
Qed.

Lemma extends_by_trans (p : Event -> bool) t0 t1 t2 :
  extends_by p t0 t1 -> extends_by p t1 t2 -> extends_by p t0 t2.
Proof.
  intros H01 H12. induction H12; [assumption|]. now constructor.
Qed.

Lemma extends_by_of_app (p : Event -> bool) evs t0 :
  forallb p evs = true -> extends_by p t0 (evs ++ t0).
Proof.
  induction evs as [|e evs IH]; simpl; [constructor|].
  intros [He Hq]%andb_prop. constructor; auto.
Qed.

Lemma count_app p l1 l2 : count p (l1 ++ l2) = (count p l1 + count p l2)%nat.
Proof. unfold count. now rewrite filter_app, length_app. Qed.

Lemma TimeoutBackOff_defined n :
  backoff_defined bp n -> exists t, TimeoutBackOff opt bp n = Some t.
Proof.
  intros (HT & _ & Hn). unfold TimeoutBackOff.
  rewrite shl_one_Some by lia. eexists. reflexivity.
Qed.

Lemma OverLoadBackOff_defined n rnd :
  backoff_defined bp n -> exists v, OverLoadBackOff opt bp n rnd = Some v.
Proof.
  intros (_ & HO & Hn). unfold OverLoadBackOff.
  rewrite shl_one_Some by lia. eexists. reflexivity.
Qed.

(** What [PreProcessBeforeRetry] can change: the next timeout of the
    request, and the trace by at most one sleep. *)
Lemma PreProcessBeforeRetry_frame (s : St MC) (rnd rpcstatus cntlstatus : Z) :
  backoff_defined bp (retryTimes_ (reqDone_ s)) ->
  exists s' evs,
    PreProcessBeforeRetry opt bp rnd rpcstatus cntlstatus s = Some (tt, s') /\
    trace s' = evs ++ trace s /\
    (evs = [] \/ exists us, evs = [Ev_bthread_usleep us]) /\
    self s' = self s /\ reqCtx_ s' = reqCtx_ s /\
    metaCache_ s' = metaCache_ s /\
    slowRequest_ (reqDone_ s') = slowRequest_ (reqDone_ s) /\
    ownInflight_ (reqDone_ s') = ownInflight_ (reqDone_ s) /\
    errcode_ (reqDone_ s') = errcode_ (reqDone_ s) /\
    retryTimes_ (reqDone_ s') = retryTimes_ (reqDone_ s) /\
    createdMS_ (reqDone_ s') = createdMS_ (reqDone_ s) /\
    ((cntlstatus =? ERPCTIMEDOUT) || (cntlstatus =? ETIMEDOUT) = false ->
     nextTimeoutMS_ (reqDone_ s') = nextTimeoutMS_ (reqDone_ s)).
Proof.
  intros Hdef.
  destruct (TimeoutBackOff_defined _ Hdef) as [t Ht].
  destruct (OverLoadBackOff_defined _ rnd Hdef) as [v Hv].
  unfold PreProcessBeforeRetry. munfold. unfold GetRetriedTimes. msimpl.
  destruct ((cntlstatus =? ERPCTIMEDOUT) || (cntlstatus =? ETIMEDOUT));
    msimpl; mcases; rewrite ?Ht, ?Hv; msimpl;
    (eexists; eexists; split; [reflexivity|]; msimpl;
     split; [try (instantiate (1 := []); reflexivity);
             try (instantiate (1 := [_]); reflexivity)|];
     split; [first [left; reflexivity | right; eexists; reflexivity]|];
     repeat split; try reflexivity; try discriminate).
Qed.

(** What [OnRetry] does, whatever the outcome that led to it: it counts one
    failed RPC, then either completes (budget used up) or marks the request
    slow if it is, adjusts the next timeout or sleeps, and re-sends. *)
Lemma OnRetry_frame (s : St MC) (now rnd : Z) :
  backoff_defined bp (retryTimes_ (reqDone_ s)) ->
  exists s' evs,
    OnRetry opt bp now rnd s = Some (tt, s') /\
    trace s' = evs ++ trace s /\
    self s' = self s /\ reqCtx_ s' = reqCtx_ s /\
    metaCache_ s' = metaCache_ s /\
    ownInflight_ (reqDone_ s') = ownInflight_ (reqDone_ s) /\
    retryTimes_ (reqDone_ s') = retryTimes_ (reqDone_ s) /\
    createdMS_ (reqDone_ s') = createdMS_ (reqDone_ s) /\
    slowRequest_ (reqDone_ s')
    = slowRequest_ (reqDone_ s)
      || (retryTimes_ (reqDone_ s) <? chunkserverOPMaxRetry opt)
         && marks_slow opt now (reqDone_ s) /\
    count is_slow_metric evs
    = (if (retryTimes_ (reqDone_ s) <? chunkserverOPMaxRetry opt)
          && marks_slow opt now (reqDone_ s) then 1%nat else 0%nat) /\
    count is_fail_metric evs = 1%nat /\
    (if retryTimes_ (reqDone_ s) <? chunkserverOPMaxRetry opt
     then exists tr,
         evs = EvSend (retry_request (kind (self s)) (reqCtx_ s)) :: tr /\
         forallb not_send_or_done tr = true /\
         errcode_ (reqDone_ s') = errcode_ (reqDone_ s) /\
         ((cntlstatus_ (self s) =? ERPCTIMEDOUT)
          || (cntlstatus_ (self s) =? ETIMEDOUT) = false ->
          nextTimeoutMS_ (reqDone_ s') = nextTimeoutMS_ (reqDone_ s))
     else evs = [EvDoneRun; EvIncremFailRPCCount (optype_ (reqCtx_ s))] /\
          errcode_ (reqDone_ s') = status_ (self s) /\
          nextTimeoutMS_ (reqDone_ s') = nextTimeoutMS_ (reqDone_ s)).
Proof.
  intros Hdef.
  unfold OnRetry, marks_slow. munfold.
  unfold GetRetriedTimes, IsSlowRequest, CreatedMS. msimpl.
  rewrite Z.geb_leb, Z.leb_antisym.
  destruct (retryTimes_ (reqDone_ s) <? chunkserverOPMaxRetry opt) eqn:Hlt;
    cbn [negb andb]; msimpl.
  - destruct (negb (slowRequest_ (reqDone_ s)) && _) eqn:Hslow; msimpl;
      match goal with
      | |- context [PreProcessBeforeRetry opt bp rnd ?a ?b ?X] =>
          destruct (PreProcessBeforeRetry_frame X rnd a b Hdef)
            as (s2 & evs2 & HP & Ht & Hev & Hself & Hctx & Hmc & Hsl & Hin
                & Herr & Hrt & Hcr & Hnt)
      end;
      rewrite HP; msimpl;
      (destruct Hev as [-> | [us ->]]; cbn [app] in Ht;
       eexists; eexists; (split; [reflexivity|]); msimpl;
       rewrite Ht, ?Hself, ?Hctx, ?Hmc, ?Hin, ?Hrt, ?Hcr, ?Hsl, ?Herr;
       msimpl; (split; [solve_added|]);
       rewrite ?orb_true_r, ?orb_false_r;
       repeat split; try reflexivity; try assumption;
       eexists; repeat split; try reflexivity; assumption).
  - eexists. eexists. split; [reflexivity|]. msimpl.
    split; [solve_added|].
    rewrite orb_false_r. repeat split; reflexivity.
Qed.

(** What the dispatch of [Run] can change and which calls it makes. *)
Lemma Run_dispatch_frame (s : St MC) :
  exists s1 evs,
    Run_dispatch Parse ip2str s
    = Some (spec_retryable (optype_ (reqCtx_ s)) (outcome s), s1) /\
    trace s1 = evs ++ trace s /\
    forallb quiet evs = true /\
    count is_slow_metric evs = 0%nat /\
    count is_fail_metric evs
    = match outcome s with InvalidRequest => 1%nat | _ => 0%nat end /\
    (kind (self s1) = kind (self s) /\
     chunkIdInfo_ (self s1) = idinfo_ (reqCtx_ s) /\
     status_ (self s1) = observed_status s /\
     cntlstatus_ (self s1) = ErrorCode (cntl_ (self s))) /\
    (slowRequest_ (reqDone_ s1) = slowRequest_ (reqDone_ s) /\
     ownInflight_ (reqDone_ s1) = ownInflight_ (reqDone_ s) /\
     retryTimes_ (reqDone_ s1) = retryTimes_ (reqDone_ s) /\
     nextTimeoutMS_ (reqDone_ s1) = nextTimeoutMS_ (reqDone_ s) /\
     createdMS_ (reqDone_ s1) = createdMS_ (reqDone_ s)) /\
    (spec_retryable (optype_ (reqCtx_ s)) (outcome s) = true ->
     errcode_ (reqDone_ s1) = errcode_ (reqDone_ s)) /\
    same_operation (reqCtx_ s) (reqCtx_ s1) /\
    match outcome s with
    | Success | ChunkNotExist | Backward => True
    | _ => reqCtx_ s1 = reqCtx_ s
    end.
Proof.
  unfold Run_dispatch, outcome, observed_status, spec_classify, OnRpcFailed,
    ProcessUnstableState, OnRedirected, OnCopysetNotExist, OnSuccess,
    ClientClosure_OnSuccess, OnChunkNotExist, ClientClosure_OnChunkNotExist,
    OnInvalidRequest, OnBackward, OnChunkExist, OnEpochTooOld,
    UpdateLeaderWithRedirectInfo, RefreshLeader, same_operation.
  munfold. unfold GetResponseStatus, redirect_of, Failed. msimpl.
  destruct (negb (ErrorCode (cntl_ (self s)) =? 0)) eqn:Hfail; msimpl;
    mcases; cbn [spec_retryable];
    try match goal with H : OpType_eqb _ _ = _ |- _ => rewrite H end;
    (eexists; eexists; (split; [reflexivity|]); msimpl;
     (split; [solve_added|]);
     repeat split; try reflexivity; try assumption; try discriminate).
Qed.

Lemma quiet_not_send_or_done evs :
  forallb quiet evs = true -> forallb not_send_or_done evs = true.
Proof.
  induction evs as [|e evs IH]; [reflexivity|].
  simpl. intros [He Hq]%andb_prop. rewrite (IH Hq).
  now destruct e.
Qed.

(** One run of the closure, from the reply to the completion or the
    re-send. *)
Lemma Run_frame (s : St MC) (now rnd : Z) :
  backoff_defined bp (retryTimes_ (reqDone_ s)) ->
  exists s' evs,
    Run Parse ip2str opt bp now rnd s = Some (tt, s') /\
    trace s' = evs ++ trace s /\
    (exists e tr,
        evs = e :: tr /\ forallb not_send_or_done tr = true /\
        if spec_retryable (optype_ (reqCtx_ s)) (outcome s)
           && (retryTimes_ (reqDone_ s) <? chunkserverOPMaxRetry opt)
        then e = EvSend (retry_request (kind (self s)) (reqCtx_ s'))
        else e = EvDoneRun) /\
    (ownInflight_ (reqDone_ s') = ownInflight_ (reqDone_ s) /\
     retryTimes_ (reqDone_ s') = retryTimes_ (reqDone_ s) /\
     createdMS_ (reqDone_ s') = createdMS_ (reqDone_ s)) /\
    slowRequest_ (reqDone_ s')
    = slowRequest_ (reqDone_ s)
      || spec_retryable (optype_ (reqCtx_ s)) (outcome s)
         && ((retryTimes_ (reqDone_ s) <? chunkserverOPMaxRetry opt)
             && marks_slow opt now (reqDone_ s)) /\
    count is_slow_metric evs
    = (if spec_retryable (optype_ (reqCtx_ s)) (outcome s)
          && ((retryTimes_ (reqDone_ s) <? chunkserverOPMaxRetry opt)
              && marks_slow opt now (reqDone_ s))
       then 1%nat else 0%nat) /\
    count is_fail_metric evs
    = (if spec_retryable (optype_ (reqCtx_ s)) (outcome s) then 1%nat
       else match outcome s with InvalidRequest => 1%nat | _ => 0%nat end) /\
    same_operation (reqCtx_ s) (reqCtx_ s') /\
    match outcome s with
    | Success | ChunkNotExist | Backward => True
    | _ => reqCtx_ s' = reqCtx_ s
    end /\
    ((ErrorCode (cntl_ (self s)) =? ERPCTIMEDOUT)
     || (ErrorCode (cntl_ (self s)) =? ETIMEDOUT) = false ->
     nextTimeoutMS_ (reqDone_ s') = nextTimeoutMS_ (reqDone_ s)).
Proof.
  intros Hdef.
  destruct (Run_dispatch_frame s)
    as (s1 & evs1 & Hd & Ht1 & Hq1 & Hsl1 & Hfl1
        & (Hk & Hid & Hst & Hcs) & (Hslow & Hin & Hrt & Hnt & Hcr)
        & Herr & Hop & Hctx).
  unfold Run, bind. rewrite Hd.
  destruct (spec_retryable (optype_ (reqCtx_ s)) (outcome s)) eqn:Hb;
    cbn [andb].
  - destruct (OnRetry_frame s1 now rnd) as
      (s' & evsR & HR & HtR & Hself & HctxR & Hmc & HinR & HrtR & HcrR
       & HslR & HcsR & HcfR & Hcase).
    { now rewrite Hrt. }
    rewrite HR. exists s', (evsR ++ evs1).
    assert (Hms : marks_slow opt now (reqDone_ s1)
                  = marks_slow opt now (reqDone_ s)).
    { unfold marks_slow, IsSlowRequest, CreatedMS. now rewrite Hslow, Hcr. }
    rewrite Hrt, Hms in *.
    split; [reflexivity|].
    split; [now rewrite HtR, Ht1, app_assoc|].
    split.
    { destruct (retryTimes_ (reqDone_ s) <? chunkserverOPMaxRetry opt).
      - destruct Hcase as (tr & -> & Hnd & _).
        exists (EvSend (retry_request (kind (self s1)) (reqCtx_ s1))),
          (tr ++ evs1).
        split; [reflexivity|].
        split; [rewrite forallb_app, Hnd;
                now rewrite (quiet_not_send_or_done _ Hq1)|].
        now rewrite Hk, HctxR.
      - destruct Hcase as (-> & _).
        exists EvDoneRun, (EvIncremFailRPCCount (optype_ (reqCtx_ s1)) :: evs1).
        split; [reflexivity|]. split; [|reflexivity].
        cbn [forallb not_send_or_done is_send is_done negb andb].
        now apply quiet_not_send_or_done. }
    split; [repeat split; congruence|].
    split; [now rewrite HslR, Hslow|].
    split; [now rewrite count_app, HcsR, Hsl1, Nat.add_0_r|].
    split.
    { rewrite count_app, HcfR, Hfl1.
      unfold spec_retryable in Hb. now destruct (outcome s). }
    split; [now rewrite HctxR|].
    split; [now rewrite HctxR|].
    intros Hto. rewrite <- Hnt.
    destruct (retryTimes_ (reqDone_ s) <? chunkserverOPMaxRetry opt).
    + destruct Hcase as (tr & _ & _ & _ & Hn). apply Hn. now rewrite Hcs.
    + now destruct Hcase as (_ & _ & Hn).
  - unfold emit, modify, log. eexists. exists (EvDoneRun :: evs1).
    split; [reflexivity|]. cbn [trace reqDone_ reqCtx_].
    split; [now rewrite Ht1|].
    split.
    { exists EvDoneRun, evs1. split; [reflexivity|].
      split; [now apply quiet_not_send_or_done|reflexivity]. }
    split; [repeat split; assumption|].
    split; [now rewrite orb_false_r|].
    split; [unfold count in *; cbn [filter is_slow_metric]; exact Hsl1|].
    split; [unfold count in *; cbn [filter is_fail_metric]; exact Hfl1|].
    split; [assumption|]. split; [assumption|].
    intros _. assumption.
Qed.

(** X1.  With back-off shifts that are defined, every run of the closure
    returns, and the last thing it does is either to run the completion or
    to re-send the request, never both and never twice: it re-sends exactly
    when the outcome is retryable and the retry count is below
    [chunkserverOPMaxRetry], and runs the completion otherwise. *)
Theorem Run_completes_or_resends :
  forall (s : St MC) (now rnd : Z),
    backoff_defined bp (retryTimes_ (reqDone_ s)) ->
    exists s' e tr,
      Run Parse ip2str opt bp now rnd s = Some (tt, s') /\
      trace s' = e :: tr ++ trace s /\
      forallb not_send_or_done tr = true /\
      if spec_retryable (optype_ (reqCtx_ s)) (outcome s)
         && (retryTimes_ (reqDone_ s) <? chunkserverOPMaxRetry opt)
      then e = EvSend (retry_request (kind (self s)) (reqCtx_ s'))
      else e = EvDoneRun.
Proof.
  intros s now rnd Hdef.
  destruct (Run_frame s now rnd Hdef)
    as (s' & evs & HR & Ht & (e & tr & -> & Hnd & He) & _).
  exists s', e, tr. split; [exact HR|]. split; [exact Ht|].
  split; [exact Hnd|exact He].
Qed.

(** X2.  The closure never counts retries itself: a run leaves the retry
    count, the creation time and the inflight flag of the request as they
    were, and it changes the next timeout only when the transport error is
    one of the two timeout codes. *)
Theorem Run_keeps_bookkeeping :
  forall (s : St MC) (now rnd : Z),
    backoff_defined bp (retryTimes_ (reqDone_ s)) ->
    exists s',
      Run Parse ip2str opt bp now rnd s = Some (tt, s') /\
      GetRetriedTimes (reqDone_ s') = GetRetriedTimes (reqDone_ s) /\
      CreatedMS (reqDone_ s') = CreatedMS (reqDone_ s) /\
      ownInflight_ (reqDone_ s') = ownInflight_ (reqDone_ s) /\
      (ErrorCode (cntl_ (self s)) <> ERPCTIMEDOUT ->
       ErrorCode (cntl_ (self s)) <> ETIMEDOUT ->
       GetNextTimeoutMS (reqDone_ s') = GetNextTimeoutMS (reqDone_ s)).
Proof.
  intros s now rnd Hdef.
  destruct (Run_frame s now rnd Hdef)
    as (s' & evs & HR & _ & _ & (Hin & Hrt & Hcr) & _ & _ & _ & _ & _ & Hnt).
  exists s'. repeat split; try assumption.
  intros H1 H2. apply Hnt.
  apply Z.eqb_neq in H1, H2. now rewrite H1, H2.
Qed.

(** X3.  The slow-request flag is latched: after a run it is set if it was
    set before, or if the run re-sends (retryable outcome, budget left) and
    the request is older than [chunkserverSlowRequestThresholdMS]; the
    slow-request metric is incremented once in the latter case when the flag
    was not set, and never otherwise. *)
Theorem slow_request_latched :
  forall (s : St MC) (now rnd : Z),
    backoff_defined bp (retryTimes_ (reqDone_ s)) ->
    exists s' evs,
      Run Parse ip2str opt bp now rnd s = Some (tt, s') /\
      trace s' = evs ++ trace s /\
      IsSlowRequest (reqDone_ s')
      = IsSlowRequest (reqDone_ s)
        || spec_retryable (optype_ (reqCtx_ s)) (outcome s)
           && ((GetRetriedTimes (reqDone_ s) <? chunkserverOPMaxRetry opt)
               && (u64 (now - CreatedMS (reqDone_ s))
                     >? chunkserverSlowRequestThresholdMS opt)) /\
      count is_slow_metric evs
      = (if negb (IsSlowRequest (reqDone_ s))
            && IsSlowRequest (reqDone_ s')
         then 1%nat else 0%nat).
Proof.
  intros s now rnd Hdef.
  destruct (Run_frame s now rnd Hdef)
    as (s' & evs & HR & Ht & _ & _ & Hsl & Hcnt & _).
  exists s', evs. split; [assumption|]. split; [assumption|].
  unfold IsSlowRequest, GetRetriedTimes, CreatedMS in *.
  unfold marks_slow, IsSlowRequest, CreatedMS in *.
  rewrite Hcnt, Hsl.
  destruct (slowRequest_ (reqDone_ s));
    destruct (spec_retryable _ _);
    destruct (retryTimes_ (reqDone_ s) <? chunkserverOPMaxRetry opt);
    destruct (u64 _ >? _); split; reflexivity.
Qed.

(** X4.  The failed-RPC metric is incremented exactly once in a run whose
    outcome is retryable (whether or not the budget allows the retry) or
    INVALID_REQUEST, and not at all in any other run. *)
Theorem fail_metric_once_per_failure :
  forall (s : St MC) (now rnd : Z),
    backoff_defined bp (retryTimes_ (reqDone_ s)) ->
    exists s' evs,
      Run Parse ip2str opt bp now rnd s = Some (tt, s') /\
      trace s' = evs ++ trace s /\
      count is_fail_metric evs
      = (if spec_retryable (optype_ (reqCtx_ s)) (outcome s) then 1%nat
         else match outcome s with
              | InvalidRequest => 1%nat
              | _ => 0%nat
              end).
Proof.
  intros s now rnd Hdef.
  destruct (Run_frame s now rnd Hdef)
    as (s' & evs & HR & Ht & _ & _ & _ & _ & Hcnt & _).
  exists s', evs. split; [exact HR|]. split; [exact Ht|exact Hcnt].
Qed.

(** X5.  A run never changes what the request asks for: chunk identity,
    operation, file id, epoch, corrected sequence number, offset, length,
    write payload, source, location, chunk size and request id stay as they
    are.  The request is left entirely unchanged unless the outcome is
    Success, ChunkNotExist or Backward. *)
Theorem Run_keeps_operation :
  forall (s : St MC) (now rnd : Z),
    backoff_defined bp (retryTimes_ (reqDone_ s)) ->
    exists s',
      Run Parse ip2str opt bp now rnd s = Some (tt, s') /\
      same_operation (reqCtx_ s) (reqCtx_ s') /\
      match outcome s with
      | Success | ChunkNotExist | Backward => True
      | _ => reqCtx_ s' = reqCtx_ s
      end.
Proof.
  intros s now rnd Hdef.
  destruct (Run_frame s now rnd Hdef)
    as (s' & evs & HR & _ & _ & _ & _ & _ & _ & Hop & Hctx & _).
  exists s'. split; [exact HR|]. split; [exact Hop|exact Hctx].
Qed.

(** Decides the budget test of [OnRetry] from a hypothesis [H] that the
    retry count is below the maximum. *)
Ltac with_budget H :=
  match goal with
  | |- context [?a >=? ?b] =>
      let E := fresh in
      assert (E : (a >=? b) = false)
        by (rewrite Z.geb_leb; apply Z.leb_gt; clear - H;
            unfold GetRetriedTimes in *; lia);
      rewrite E; clear E; msimpl
  end.

(** X6.  The terminal application errors: a reply with transport status OK
    and status INVALID_REQUEST, CHUNK_EXIST or EPOCH_TOO_OLD, or with status
    CHUNK_NOTEXIST for a closure other than [ReadChunkClosure].  Whatever
    the retry count, the run returns with the error code set to that status,
    the request unchanged, the completion run and nothing re-sent and no
    sleep. *)
Theorem terminal_status_reported :
  forall (s : St MC) (now rnd : Z),
    distinct_status = true ->
    Failed (cntl_ (self s)) = false ->
    GetResponseStatus (self s) = CHUNK_OP_STATUS_INVALID_REQUEST
    \/ GetResponseStatus (self s) = CHUNK_OP_STATUS_CHUNK_EXIST
    \/ GetResponseStatus (self s) = CHUNK_OP_STATUS_EPOCH_TOO_OLD
    \/ (GetResponseStatus (self s) = CHUNK_OP_STATUS_CHUNK_NOTEXIST
        /\ kind (self s) <> ReadChunkClosure) ->
    exists s' tr,
      Run Parse ip2str opt bp now rnd s = Some (tt, s') /\
      GetErrorCode (reqDone_ s') = GetResponseStatus (self s) /\
      reqCtx_ s' = reqCtx_ s /\
      trace s' = EvDoneRun :: tr /\ extends_by quiet (trace s) tr.
Proof.
  intros s now rnd Hd Hf Hst.
  use_distinct Hd.
  unfold_Run. unfold GetResponseStatus in *. msimpl.
  rewrite Hf. msimpl.
  destruct Hst as [Hst | [Hst | [Hst | [Hst Hk]]]]; rewrite Hst;
    decide_status;
    try (destruct (kind (self s)) eqn:Hkind; try congruence; msimpl);
    (eexists; eexists; (split; [reflexivity|]); msimpl;
     (split; [reflexivity|]); (split; [reflexivity|]);
     (split; [reflexivity|]); repeat constructor).
Qed.

(** X7.  A reply with transport status OK and status SUCCESS.  The run
    returns with error code 0; it clears the timeout record of the
    chunkserver, records the latency and the QPS once each and runs the
    completion.  [ReadChunkClosure] and [ReadChunkSnapClosure] replace the
    read buffer by the attachment of the reply, [GetChunkInfoClosure]
    appends the sequence numbers of the reply to the chunk-info accumulator,
    and nothing else of the request changes. *)
Theorem success_installs_result :
  forall (s : St MC) (now rnd : Z),
    Failed (cntl_ (self s)) = false ->
    GetResponseStatus (self s) = CHUNK_OP_STATUS_SUCCESS ->
    exists s',
      Run Parse ip2str opt bp now rnd s = Some (tt, s') /\
      GetErrorCode (reqDone_ s') = 0 /\
      trace s'
      = EvDoneRun
        :: EvIncremRPCQPSCount (rawlength_ (reqCtx_ s)) (optype_ (reqCtx_ s))
        :: EvLatencyRecord (latency_us (cntl_ (self s))) (optype_ (reqCtx_ s))
        :: EvClearTimeout (chunkserverID_ (self s))
             (chunkserverEndPoint_ (self s))
        :: trace s /\
      reqCtx_ s'
      = match kind (self s) with
        | ReadChunkClosure | ReadChunkSnapClosure =>
            set_readData_ (response_attachment (cntl_ (self s))) (reqCtx_ s)
        | GetChunkInfoClosure =>
            set_chunkinfodetail_
              (chunkinfodetail_ (reqCtx_ s)
               ++ chunksn (chunkinforesponse_ (self s))) (reqCtx_ s)
        | _ => reqCtx_ s
        end.
Proof.
  intros s now rnd Hf Hst.
  unfold_Run. unfold GetResponseStatus in *. msimpl.
  rewrite Hf. msimpl. rewrite Hst. decide_status.
  destruct (kind (self s)); msimpl;
    (eexists; (split; [reflexivity|]); msimpl;
     repeat split; destruct s as [c d [ ] m t]; reflexivity).
Qed.

(** X8.  A reply with transport status OK and status OVERLOAD, with budget
    left.  The run sleeps once, for [OverLoadBackOff] of the retry count,
    and then re-sends the unchanged request.  Besides clearing the timeout
    record it makes no call to the metadata cache, and [retryDirectly_]
    plays no role.  The sleep lies between the retry interval and the
    maximum sleep when these are in order. *)
Theorem overload_reply_backs_off :
  forall (s : St MC) (now rnd : Z),
    distinct_status = true ->
    backoff_defined bp (retryTimes_ (reqDone_ s)) ->
    Failed (cntl_ (self s)) = false ->
    GetResponseStatus (self s) = CHUNK_OP_STATUS_OVERLOAD ->
    GetRetriedTimes (reqDone_ s) < chunkserverOPMaxRetry opt ->
    exists s' v tr,
      Run Parse ip2str opt bp now rnd s = Some (tt, s') /\
      OverLoadBackOff opt bp (GetRetriedTimes (reqDone_ s)) rnd = Some v /\
      reqCtx_ s' = reqCtx_ s /\
      metaCache_ s'
      = ClearTimeout (chunkserverID_ (self s)) (chunkserverEndPoint_ (self s))
          (metaCache_ s) /\
      trace s'
      = EvSend (retry_request (kind (self s)) (reqCtx_ s))
        :: Ev_bthread_usleep v :: tr /\
      extends_by is_metric
        (EvClearTimeout (chunkserverID_ (self s))
           (chunkserverEndPoint_ (self s)) :: trace s) tr /\
      (chunkserverOPRetryIntervalUS opt
       <= chunkserverMaxRetrySleepIntervalUS opt ->
       chunkserverOPRetryIntervalUS opt <= v
       <= chunkserverMaxRetrySleepIntervalUS opt).
Proof.
  intros s now rnd Hd Hdef Hf Hst Hlt.
  destruct (OverLoadBackOff_defined _ rnd Hdef) as [v Hv].
  pose proof (fun H => OverLoadBackOff_in_range opt bp _ rnd v H Hv) as Hrange.
  use_distinct Hd.
  pose proof (not_Failed _ Hf) as He.
  unfold_Run. unfold GetResponseStatus, GetRetriedTimes in *. msimpl.
  rewrite Hf. msimpl. rewrite ?Hst, ?He. decide_status.
  with_budget Hlt.
  match goal with |- context [if ?c then _ else _] => destruct c end;
    decide_status; rewrite Hv; msimpl;
    (eexists; exists v; eexists; (split; [reflexivity|]); msimpl;
     (split; [reflexivity|]); (split; [reflexivity|]);
     (split; [reflexivity|]); (split; [reflexivity|]);
     (split; [repeat constructor|exact Hrange])).
Qed.

(** X9.  A reply with transport status OK and a status that is none of the
    nine the closure names, with budget left.  The run makes no call to the
    metadata cache besides clearing the timeout record, sleeps for the retry
    interval unless [retryDirectly_] is set or the interval is zero, and
    re-sends the unchanged request. *)
Theorem unknown_status_plain_retry :
  forall (s : St MC) (now rnd : Z),
    Failed (cntl_ (self s)) = false ->
    unknown_status (GetResponseStatus (self s)) ->
    GetRetriedTimes (reqDone_ s) < chunkserverOPMaxRetry opt ->
    exists s' tr,
      Run Parse ip2str opt bp now rnd s = Some (tt, s') /\
      reqCtx_ s' = reqCtx_ s /\
      metaCache_ s'
      = ClearTimeout (chunkserverID_ (self s)) (chunkserverEndPoint_ (self s))
          (metaCache_ s) /\
      trace s'
      = EvSend (retry_request (kind (self s)) (reqCtx_ s))
        :: (if retryDirectly_ (self s)
               || (chunkserverOPRetryIntervalUS opt =? 0)
            then tr
            else Ev_bthread_usleep (chunkserverOPRetryIntervalUS opt) :: tr) /\
      extends_by is_metric
        (EvClearTimeout (chunkserverID_ (self s))
           (chunkserverEndPoint_ (self s)) :: trace s) tr.
Proof.
  intros s now rnd Hf Hu Hlt.
  destruct Hu as (U1 & U2 & U3 & U4 & U5 & U6 & U7 & U8 & U9).
  pose proof (not_Failed _ Hf) as He.
  unfold_Run. unfold GetResponseStatus, GetRetriedTimes in *. msimpl.
  rewrite Hf. msimpl. rewrite ?He. decide_status.
  with_budget Hlt.
  match goal with |- context [if ?c then _ else _] => destruct c end;
    decide_status;
    destruct (retryDirectly_ (self s)); cbn [negb orb]; msimpl;
    try change (0 =? 0) with true; cbn [negb]; msimpl;
    try (destruct (chunkserverOPRetryIntervalUS opt =? 0); cbn [negb]; msimpl);
    (eexists; eexists; (split; [reflexivity|]); msimpl;
     (split; [reflexivity|]); (split; [reflexivity|]);
     (split; [reflexivity|]); repeat constructor).
Qed.

(** X10.  The health update after a transport failure, as [Run] performs it
    before the retry gate.  The sender is reset first.  The timeout counter
    of the chunkserver is incremented exactly when the error is
    [brpc::ERPCTIMEDOUT] (the system's [ETIMEDOUT] does not count), and it
    is never cleared.  Then, by the unstable state of the chunkserver: the
    leader is refreshed from the authority only in state NoUnstable; in
    state ChunkServerUnstable the chunkserver is marked unstable; in state
    ServerUnstable the server is marked unstable, and the chunkserver too
    exactly when marking the server fails.  The status recorded for the
    attempt is the transport error code and a retry is always asked for. *)
Theorem rpc_failed_health_update :
  forall (s : St MC),
    Failed (cntl_ (self s)) = true ->
    let cs := chunkserverID_ (self s) in
    let ep := chunkserverEndPoint_ (self s) in
    let op := optype_ (reqCtx_ s) in
    let timedout := ErrorCode (cntl_ (self s)) =? ERPCTIMEDOUT in
    let mc0 := if timedout then IncreTimeout cs (metaCache_ s)
               else metaCache_ s in
    let u := GetCurrentUnstableState cs ep mc0 in
    exists s1 tr,
      Run_dispatch Parse ip2str s = Some (true, s1) /\
      status_ (self s1) = ErrorCode (cntl_ (self s)) /\
      trace s1
      = tr ++ (if timedout
               then [EvIncremTimeOutRPCCount op; EvIncreTimeout cs]
               else [])
           ++ EvResetSenderIfNotHealth cs :: trace s /\
      tr = match fst u with
           | NoUnstable =>
               [EvGetLeader (lpid_ (idinfo_ (reqCtx_ s)))
                  (cpid_ (idinfo_ (reqCtx_ s))) true]
           | ChunkServerUnstable => [EvSetChunkserverUnstable cs]
           | ServerUnstable =>
               if fst (SetServerUnstable (ip2str (ip ep)) (snd u)) =? 0
               then [EvSetServerUnstable (ip2str (ip ep))]
               else [EvSetChunkserverUnstable cs;
                     EvSetServerUnstable (ip2str (ip ep))]
           end.
Proof.
  intros s Hf. cbv zeta.
  unfold Run_dispatch, OnRpcFailed, ProcessUnstableState, RefreshLeader.
  munfold. msimpl. rewrite Hf. msimpl.
  destruct (ErrorCode (cntl_ (self s)) =? ERPCTIMEDOUT); msimpl;
    match goal with
    | |- context [fst (GetCurrentUnstableState ?a ?b ?c)] =>
        destruct (fst (GetCurrentUnstableState a b c))
    end; msimpl;
    try match goal with
        | |- context [fst (SetServerUnstable ?a ?b) =? 0] =>
            destruct (fst (SetServerUnstable a b) =? 0)
        end; cbn [negb]; msimpl;
    try match goal with
        | |- context [if ?c then _ else _] => destruct c
        end; msimpl;
    (eexists; eexists; (split; [reflexivity|]); msimpl;
     (split; [reflexivity|]); (split; [|reflexivity]); reflexivity).
Qed.

(** X11.  Whenever the transport succeeds, whatever the reply status and
    the closure class, the first thing [Run] does is to clear the timeout
    record of the chunkserver, and it makes no other call that concerns the
    health of a chunkserver: no sender reset, no timeout increment, nothing
    is marked unstable. *)
Theorem reply_clears_timeout :
  forall (s : St MC),
    Failed (cntl_ (self s)) = false ->
    exists needRetry s1,
      Run_dispatch Parse ip2str s = Some (needRetry, s1) /\
      extends_by (fun e => negb (is_health_call e))
        (EvClearTimeout (chunkserverID_ (self s))
           (chunkserverEndPoint_ (self s)) :: trace s)
        (trace s1).
Proof.
  intros s Hf.
  unfold Run_dispatch, OnRedirected, OnCopysetNotExist, OnSuccess,
    ClientClosure_OnSuccess, OnChunkNotExist, ClientClosure_OnChunkNotExist,
    OnInvalidRequest, OnBackward, OnChunkExist, OnEpochTooOld,
    UpdateLeaderWithRedirectInfo, RefreshLeader.
  munfold. unfold redirect_of. msimpl. rewrite Hf. msimpl.
  mcases;
    (eexists; eexists; (split; [reflexivity|]); msimpl; repeat constructor).
Qed.

(** X12.  A reply with transport status OK and status COPYSET_NOTEXIST, with
    budget left.  After clearing the timeout record the run asks the
    authority for the leader, once.  If the answer is not -1,
    [retryDirectly_] tells whether the leader differs from the chunkserver
    that answered; otherwise it keeps its value.  The unchanged request is
    then re-sent, at once when [retryDirectly_] is set and after a sleep of
    the retry interval (if that is not zero) when it is not. *)
Theorem copyset_not_exist_refresh_then_retry :
  forall (s : St MC) (now rnd : Z),
    distinct_status = true ->
    Failed (cntl_ (self s)) = false ->
    GetResponseStatus (self s) = CHUNK_OP_STATUS_COPYSET_NOTEXIST ->
    GetRetriedTimes (reqDone_ s) < chunkserverOPMaxRetry opt ->
    let cs := chunkserverID_ (self s) in
    let ep := chunkserverEndPoint_ (self s) in
    let lp := lpid_ (idinfo_ (reqCtx_ s)) in
    let cp := cpid_ (idinfo_ (reqCtx_ s)) in
    let g := GetLeader lp cp true (ClearTimeout cs ep (metaCache_ s)) in
    exists s' tr,
      Run Parse ip2str opt bp now rnd s = Some (tt, s') /\
      reqCtx_ s' = reqCtx_ s /\
      metaCache_ s' = snd g /\
      retryDirectly_ (self s')
      = (if -1 =? ret_ (fst g) then retryDirectly_ (self s)
         else negb (leaderId (fst g) =? cs)) /\
      trace s'
      = EvSend (retry_request (kind (self s)) (reqCtx_ s))
        :: (if retryDirectly_ (self s')
               || (chunkserverOPRetryIntervalUS opt =? 0)
            then tr
            else Ev_bthread_usleep (chunkserverOPRetryIntervalUS opt) :: tr) /\
      extends_by is_metric
        (EvGetLeader lp cp true :: EvClearTimeout cs ep :: trace s) tr.
Proof.
  intros s now rnd Hd Hf Hst Hlt. cbv zeta.
  use_distinct Hd.
  pose proof (not_Failed _ Hf) as He.
  unfold_Run. unfold GetResponseStatus, GetRetriedTimes in *. msimpl.
  rewrite Hf. msimpl. rewrite ?Hst, ?He. decide_status.
  destruct (-1 =? ret_ _) eqn:Hret; msimpl;
    try match goal with
        | |- context [leaderId ?g =? ?c] =>
            destruct (leaderId g =? c) eqn:Hlid
        end;
    destruct (retryDirectly_ (self s)) eqn:Hrd; cbn [negb]; msimpl;
    with_budget Hlt;
    (match goal with |- context [if ?c then _ else _] => destruct c end);
    decide_status; rewrite ?Hrd; cbn [negb orb]; msimpl;
    try change (0 =? 0) with true; cbn [negb]; msimpl;
    try (destruct (chunkserverOPRetryIntervalUS opt =? 0); cbn [negb]; msimpl);
    (eexists; eexists; (split; [reflexivity|]); msimpl;
     rewrite ?Hret, ?Hlid, ?Hrd; cbn [negb orb];
     (split; [reflexivity|]); (split; [reflexivity|]);
     (split; [reflexivity|]); (split; [reflexivity|]); repeat constructor).
Qed.

(** X13.  A reply with transport status OK and status REDIRECTED whose
    leader hint is accepted (it parses, and [UpdateLeader] and the
    [GetLeader] after it return 0), with budget left.  The run counts the
    redirect, installs the hint and reads the leader back, without asking
    the authority; [retryDirectly_] tells whether that leader differs from
    the chunkserver that answered.  The unchanged request is then re-sent,
    at once when the leader differs, and after a tenth of the retry interval
    (if that is not zero) when it does not. *)
Theorem redirected_accepted_hint_then_retry :
  forall (s : St MC) (now rnd : Z) (hint : string),
    distinct_status = true ->
    Failed (cntl_ (self s)) = false ->
    GetResponseStatus (self s) = CHUNK_OP_STATUS_REDIRECTED ->
    GetRetriedTimes (reqDone_ s) < chunkserverOPMaxRetry opt ->
    redirect_of (self s) = Some hint ->
    let cs := chunkserverID_ (self s) in
    let ep := chunkserverEndPoint_ (self s) in
    let lp := lpid_ (idinfo_ (reqCtx_ s)) in
    let cp := cpid_ (idinfo_ (reqCtx_ s)) in
    let addr := snd (Parse hint) in
    let u := UpdateLeader lp cp addr (ClearTimeout cs ep (metaCache_ s)) in
    let g := GetLeader lp cp false (snd u) in
    fst (Parse hint) = 0 -> fst u = 0 -> ret_ (fst g) = 0 ->
    exists s' tr,
      Run Parse ip2str opt bp now rnd s = Some (tt, s') /\
      reqCtx_ s' = reqCtx_ s /\
      metaCache_ s' = snd g /\
      retryDirectly_ (self s') = negb (leaderId (fst g) =? cs) /\
      trace s'
      = EvSend (retry_request (kind (self s)) (reqCtx_ s))
        :: (if retryDirectly_ (self s')
               || (chunkserverOPRetryIntervalUS opt / 10 =? 0)
            then tr
            else Ev_bthread_usleep (chunkserverOPRetryIntervalUS opt / 10)
                 :: tr) /\
      extends_by is_metric
        (EvGetLeader lp cp false :: EvUpdateLeader lp cp addr
         :: EvIncremRedirectRPCCount (optype_ (reqCtx_ s))
         :: EvClearTimeout cs ep :: trace s) tr.
Proof.
  intros s now rnd hint Hd Hf Hst Hlt Hhint. cbv zeta. intros Hp Hu Hg.
  use_distinct Hd.
  pose proof (not_Failed _ Hf) as He.
  unfold_Run. unfold GetResponseStatus, redirect_of, GetRetriedTimes in *.
  msimpl.
  rewrite Hf. msimpl. rewrite ?Hst, ?He. decide_status.
  rewrite Hhint. msimpl.
  rewrite Hp. decide_status. cbn [negb]. msimpl.
  rewrite Hu. decide_status. cbn [negb]. msimpl.
  rewrite Hg. decide_status. cbn [negb]. decide_status.
  match goal with
  | |- context [leaderId ?g =? ?c] => destruct (leaderId g =? c) eqn:Hlid
  end; cbn [negb]; msimpl;
    with_budget Hlt;
    (match goal with |- context [if ?c then _ else _] => destruct c end);
    decide_status; cbn [negb orb]; msimpl;
    try change (0 =? 0) with true; cbn [negb]; msimpl;
    try (destruct (chunkserverOPRetryIntervalUS opt / 10 =? 0);
         cbn [negb]; msimpl);
    (eexists; eexists; (split; [reflexivity|]); msimpl;
     rewrite ?Hlid; cbn [negb orb];
     (split; [reflexivity|]); (split; [reflexivity|]);
     (split; [reflexivity|]); (split; [reflexivity|]); repeat constructor).
Qed.

(** C8.  The sleep before the retry after a transport failure that is not a
    timeout, with budget left.  [OnRpcFailed] stores the transport error
    code in [status_], and [OnRetry] hands [status_] to
    [PreProcessBeforeRetry] as the reply status.  So the sleep is the plain
    one (nothing if [retryDirectly_] is set after the health update, and
    [chunkserverOPRetryIntervalUS] otherwise) only when the error code is
    neither the number of OVERLOAD nor that of REDIRECTED: an error code
    that equals CHUNK_OP_STATUS_OVERLOAD gets the sleep [OverLoadBackOff]
    of an overloaded chunkserver, whatever [retryDirectly_] says, and one
    that equals CHUNK_OP_STATUS_REDIRECTED gets a tenth of the retry
    interval, although no reply has been received at all. *)
Theorem transport_error_code_read_as_reply_status :
  forall (s : St MC) (now rnd : Z),
    backoff_defined bp (retryTimes_ (reqDone_ s)) ->
    Failed (cntl_ (self s)) = true ->
    ErrorCode (cntl_ (self s)) <> ERPCTIMEDOUT ->
    ErrorCode (cntl_ (self s)) <> ETIMEDOUT ->
    GetRetriedTimes (reqDone_ s) < chunkserverOPMaxRetry opt ->
    let code := ErrorCode (cntl_ (self s)) in
    let plain :=
      if code =? CHUNK_OP_STATUS_REDIRECTED
      then chunkserverOPRetryIntervalUS opt / 10
      else chunkserverOPRetryIntervalUS opt in
    exists s' v tr,
      Run Parse ip2str opt bp now rnd s = Some (tt, s') /\
      OverLoadBackOff opt bp (GetRetriedTimes (reqDone_ s)) rnd = Some v /\
      trace s'
      = EvSend (retry_request (kind (self s)) (reqCtx_ s))
        :: (if code =? CHUNK_OP_STATUS_OVERLOAD
            then Ev_bthread_usleep v :: tr
            else if retryDirectly_ (self s') || (plain =? 0) then tr
                 else Ev_bthread_usleep plain :: tr) /\
      extends_by not_send_or_sleep (trace s) tr.
Proof.
  intros s now rnd Hdef Hf H1 H2 Hlt. cbv zeta.
  destruct (OverLoadBackOff_defined _ rnd Hdef) as [v Hv].
  apply Z.eqb_neq in H1, H2.
  destruct (ErrorCode (cntl_ (self s)) =? CHUNK_OP_STATUS_OVERLOAD) eqn:Eo;
    destruct (ErrorCode (cntl_ (self s)) =? CHUNK_OP_STATUS_REDIRECTED)
      eqn:Er;
    destruct (retryDirectly_ (self s)) eqn:Hrd;
    unfold_Run; unfold GetRetriedTimes in *; msimpl;
    rewrite Hf; msimpl; rewrite ?H1, ?H2; cbn [orb]; msimpl;
    match goal with
    | |- context [fst (GetCurrentUnstableState ?a ?b ?c)] =>
        destruct (fst (GetCurrentUnstableState a b c))
    end; msimpl;
    try match goal with
        | |- context [fst (SetServerUnstable ?a ?b) =? 0] =>
            destruct (fst (SetServerUnstable a b) =? 0)
        end; cbn [negb]; msimpl;
    try match goal with
        | |- context [-1 =? ?r] => destruct (-1 =? r) eqn:Hret
        end; msimpl;
    try match goal with
        | |- context [leaderId ?g =? ?c] =>
            destruct (leaderId g =? c) eqn:Hlid
        end; cbn [negb]; msimpl;
    with_budget Hlt; rewrite ?H1, ?H2, ?Eo, ?Er; cbn [orb]; msimpl;
    match goal with
    | |- context [if negb ?a && ?b then _ else _] => destruct (negb a && b)
    end;
    msimpl;
    do 3 (rewrite ?H1, ?H2, ?Eo, ?Er, ?Hrd, ?Hv; cbn [negb orb]; msimpl);
    try change (0 =? 0) with true; cbn [negb]; msimpl;
    try (destruct (chunkserverOPRetryIntervalUS opt / 10 =? 0) eqn:Hz;
         cbn [negb]; msimpl);
    try (destruct (chunkserverOPRetryIntervalUS opt =? 0) eqn:Hz';
         cbn [negb]; msimpl);
    (eexists; exists v; eexists; (split; [reflexivity|]); msimpl;
     rewrite ?Hret, ?Hlid, ?Hrd, ?Hz, ?Hz'; cbn [negb orb];
     (split; [reflexivity|]); (split; [reflexivity|]); repeat constructor).
Qed.

End EngineFacts.

(** ** Runs on concrete inputs *)

Import Sample.

(** Scenario: the retry budget is 3 and the third send is refused
    (ECONNREFUSED, 111).  The error code is 111, the completion is run and
    nothing is re-sent; with the budget not yet used up the request is
    re-sent after the plain retry sleep. *)
Example budget_exhaustion :
  exists s',
    Run Parse ip2str default_failReqOpt default_backoffParam 0 0
      (state WriteChunkClosure WRITE 111 0 None 3) = Some (tt, s') /\
    GetErrorCode (reqDone_ s') = 111 /\
    trace s'
    = [EvDoneRun; EvIncremFailRPCCount WRITE; EvGetLeader 3 20 true;
       EvResetSenderIfNotHealth 1].
Proof. eexists. split; [vm_compute; reflexivity|]. split; reflexivity. Qed.

Example budget_left :
  exists s',
    Run Parse ip2str default_failReqOpt default_backoffParam 0 0
      (state ReadChunkClosure READ 111 0 None 1) = Some (tt, s') /\
    trace s'
    = [EvSend (ReadChunk idinfo0 7 0 8192 0); EvIncremFailRPCCount READ;
       EvGetLeader 3 20 true; EvResetSenderIfNotHealth 1].
Proof. eexists. split; [vm_compute; reflexivity|]. reflexivity. Qed.

Lemma read_hole_on_chunk_not_exist_witness :
  exists s',
    Run Parse ip2str default_failReqOpt default_backoffParam 0 0
      (state ReadChunkClosure READ 0 7 None 0) = Some (tt, s') /\
    GetErrorCode (reqDone_ s') = 0 /\
    Z.of_nat (List.length (readData_ (reqCtx_ s'))) = 8192 /\
    Forall (eq Byte.x00) (readData_ (reqCtx_ s')) /\
    exists tr, trace s' = EvDoneRun :: tr /\ extends_by quiet [] tr.
Proof.
  apply (read_hole_on_chunk_not_exist Parse ip2str default_failReqOpt
           default_backoffParam (state ReadChunkClosure READ 0 7 None 0) 0 0).
  - reflexivity.
  - reflexivity.
  - reflexivity.
  - reflexivity.
  - simpl. lia.
  - simpl. constructor.
Defined.

(** C3 on a concrete input: a READ request answered with BACKWARD (10) after
    its first send.  The completion is run with the error code still at
    its initial value -1, and not 10. *)
Lemma backward_non_write_error_code_unset_witness :
  exists s',
    Run Parse ip2str default_failReqOpt default_backoffParam 0 0
      (state ReadChunkClosure READ 0 10 None 1) = Some (tt, s') /\
    reqDone_ s' = IncremRetriedTimes (RequestClosure_new 0) /\
    GetErrorCode (reqDone_ s') = -1 /\
    reqCtx_ s' = request READ /\
    trace s' = [EvDoneRun; EvClearTimeout 1 ep0].
Proof.
  refine (backward_non_write_error_code_unset Parse ip2str
            default_failReqOpt default_backoffParam
            (state ReadChunkClosure READ 0 10 None 1) 0 0 _ _ _ _).
  - reflexivity.
  - reflexivity.
  - reflexivity.
  - discriminate.
Defined.

(** The sibling path: the same request answered with INVALID_REQUEST (4)
    completes with the error code 4. *)
Example invalid_request_read_error_code :
  exists s',
    Run Parse ip2str default_failReqOpt default_backoffParam 0 0
      (state ReadChunkClosure READ 0 4 None 1) = Some (tt, s') /\
    GetErrorCode (reqDone_ s') = 4.
Proof. eexists. split; [vm_compute; reflexivity|]. reflexivity. Qed.

Lemma timeout_retry_next_timeout_witness :
  let s := with_self (set_cntlstatus_ ERPCTIMEDOUT)
             (state WriteChunkClosure WRITE 1008 0 None 0) in
  PreProcessBeforeRetry default_failReqOpt default_backoffParam 0 1008
    (cntlstatus_ (self s)) s
  = Some (tt, with_reqDone (SetNextTimeOutMS 1000) s) /\
  (GetRetriedTimes (reqDone_ s) < 3 ->
   exists s' tr,
     OnRetry default_failReqOpt default_backoffParam 0 0 s = Some (tt, s') /\
     GetNextTimeoutMS (reqDone_ s') = 1000 /\
     trace s' = EvSend (retry_request (kind (self s)) (reqCtx_ s)) :: tr /\
     extends_by not_send_or_sleep (trace s) tr).
Proof.
  cbv zeta.
  apply (timeout_retry_next_timeout default_failReqOpt default_backoffParam
           (with_self (set_cntlstatus_ ERPCTIMEDOUT)
              (state WriteChunkClosure WRITE 1008 0 None 0)) 0 0 1008 1000).
  - left. reflexivity.
  - simpl. reflexivity.
Defined.

Lemma OnRedirected_leader_resolution_witness :
  let s := state GetChunkInfoClosure GET_CHUNK_INFO 0 1
             (Some "1.2.3.4:8200:0"%string) 0 in
  exists s',
    OnRedirected Parse s = Some (tt, s') /\
    retryDirectly_ (self s') = true /\
    trace s' = [EvGetLeader 3 20 false; EvUpdateLeader 3 20 (mkEndPoint 1 8200)].
Proof.
  cbv zeta.
  destruct (OnRedirected_leader_resolution Parse
              (state GetChunkInfoClosure GET_CHUNK_INFO 0 1
                 (Some "1.2.3.4:8200:0"%string) 0))
    as (s' & HR & _ & Hacc & _).
  - reflexivity.
  - exists s'. split; [exact HR|].
    destruct (Hacc eq_refl) as (hint & Hh & Ht & _ & Hd).
    injection Hh as <-. split; [exact Hd|exact Ht].
Defined.

(** C8 on a concrete input: the second send of a WRITE fails in transport
    with error code 9, which is also the number of OVERLOAD here.  The
    leader refresh of the health update sets [retryDirectly_], so the plain
    sleep would be none; the run sleeps for [OverLoadBackOff]. *)
Lemma transport_error_code_read_as_reply_status_witness :
  backoff_defined default_backoffParam 1 /\
  exists s' v tr,
    Run Parse ip2str default_failReqOpt default_backoffParam 0 0
      (state WriteChunkClosure WRITE 9 0 None 1) = Some (tt, s') /\
    OverLoadBackOff default_failReqOpt default_backoffParam 1 0 = Some v /\
    trace s'
    = EvSend (retry_request WriteChunkClosure (request WRITE))
      :: Ev_bthread_usleep v :: tr /\
    extends_by not_send_or_sleep [] tr.
Proof.
  assert (H : backoff_defined default_backoffParam 1)
    by (unfold backoff_defined; simpl; lia).
  split; [exact H|].
  refine (transport_error_code_read_as_reply_status Parse ip2str
            default_failReqOpt default_backoffParam
            (state WriteChunkClosure WRITE 9 0 None 1) 0 0 H _ _ _ _).
  - reflexivity.
  - discriminate.
  - discriminate.
  - reflexivity.
Defined.

(** The same run in full: the leader is found to have moved, and the run
    still sleeps 180000 us before it re-sends. *)
Example transport_error_9_sleeps_as_overload :
  exists s',
    Run Parse ip2str default_failReqOpt default_backoffParam 0 0
      (state WriteChunkClosure WRITE 9 0 None 1) = Some (tt, s') /\
    retryDirectly_ (self s') = true /\
    trace s'
    = [EvSend (retry_request WriteChunkClosure (request WRITE));
       Ev_bthread_usleep 180000; EvIncremFailRPCCount WRITE;
       EvGetLeader 3 20 true; EvResetSenderIfNotHealth 1].
Proof. eexists. split; [vm_compute; reflexivity|]. split; reflexivity. Qed.

(** A transport failure with error code 1, the number of REDIRECTED here,
    when the authority does not answer: [retryDirectly_] stays unset and the
    run sleeps a tenth of the retry interval, 10000 us instead of 100000. *)
Example transport_error_1_sleeps_as_redirected :
  exists s',
    Run Parse ip2str default_failReqOpt default_backoffParam 0 0
      (with_metaCache (fun _ => mkCache 1 None 9 true NoUnstable 0)
         (state WriteChunkClosure WRITE 1 0 None 1)) = Some (tt, s') /\
    retryDirectly_ (self s') = false /\
    trace s'
    = [EvSend (retry_request WriteChunkClosure (request WRITE));
       Ev_bthread_usleep 10000; EvIncremFailRPCCount WRITE;
       EvGetLeader 3 20 true; EvResetSenderIfNotHealth 1].
Proof. eexists. split; [vm_compute; reflexivity|]. split; reflexivity. Qed.

Lemma redirect_hint_parse_failure_witness :
  let s := state ReadChunkClosure READ 0 1 (Some EmptyString) 0 in
  UpdateLeaderWithRedirectInfo Parse EmptyString s = Some (-1, s) /\
  OnRedirected Parse s = RefreshLeader s /\
  exists s',
    OnRedirected Parse s = Some (tt, s') /\
    trace s' = EvGetLeader 3 20 true :: trace s /\
    metaCache_ s' = snd (GetLeader 3 20 true (metaCache_ s)).
Proof.
  cbv zeta.
  apply (redirect_hint_parse_failure Parse
           (state ReadChunkClosure READ 0 1 (Some EmptyString) 0)
           EmptyString).
  - reflexivity.
  - simpl. lia.
Defined.

(** ** The further properties on concrete inputs *)


Lemma Run_completes_or_resends_witness :
  backoff_defined default_backoffParam 1 /\
  exists s' e tr,
    Run Parse ip2str default_failReqOpt default_backoffParam 0 0
      (state ReadChunkClosure READ 111 0 None 1) = Some (tt, s') /\
    trace s' = e :: tr ++ [] /\
    forallb not_send_or_done tr = true /\
    e = EvSend (retry_request ReadChunkClosure (reqCtx_ s')).
Proof.
  assert (H : backoff_defined default_backoffParam 1)
    by (unfold backoff_defined; simpl; lia).
  split; [exact H|].
  exact (Run_completes_or_resends Parse ip2str default_failReqOpt
           default_backoffParam (state ReadChunkClosure READ 111 0 None 1)
           0 0 H).
Defined.

Lemma Run_keeps_bookkeeping_witness :
  backoff_defined default_backoffParam 2 /\
  exists s',
    Run Parse ip2str default_failReqOpt default_backoffParam 0 0
      (state WriteChunkClosure WRITE 111 0 None 2) = Some (tt, s') /\
    GetRetriedTimes (reqDone_ s') = 2 /\
    CreatedMS (reqDone_ s') = 0 /\
    ownInflight_ (reqDone_ s') = false /\
    (111 <> ERPCTIMEDOUT -> 111 <> ETIMEDOUT ->
     GetNextTimeoutMS (reqDone_ s') = 0).
Proof.
  assert (H : backoff_defined default_backoffParam 2)
    by (unfold backoff_defined; simpl; lia).
  split; [exact H|].
  exact (Run_keeps_bookkeeping Parse ip2str default_failReqOpt
           default_backoffParam (state WriteChunkClosure WRITE 111 0 None 2)
           0 0 H).
Defined.

(** A request created at time 0 whose reply with OVERLOAD is handled at
    time 50000 ms, past the threshold of 45000 ms: the flag is set and the
    metric counted once. *)
Lemma slow_request_latched_witness :
  backoff_defined default_backoffParam 1 /\
  exists s' evs,
    Run Parse ip2str default_failReqOpt default_backoffParam 50000 0
      (state WriteChunkClosure WRITE 0 9 None 1) = Some (tt, s') /\
    trace s' = evs ++ [] /\
    IsSlowRequest (reqDone_ s') = true /\
    count is_slow_metric evs
    = (if negb false && IsSlowRequest (reqDone_ s') then 1%nat else 0%nat).
Proof.
  assert (H : backoff_defined default_backoffParam 1)
    by (unfold backoff_defined; simpl; lia).
  split; [exact H|].
  exact (slow_request_latched Parse ip2str default_failReqOpt
           default_backoffParam (state WriteChunkClosure WRITE 0 9 None 1)
           50000 0 H).
Defined.

Lemma fail_metric_once_per_failure_witness :
  backoff_defined default_backoffParam 3 /\
  exists s' evs,
    Run Parse ip2str default_failReqOpt default_backoffParam 0 0
      (state WriteChunkClosure WRITE 111 0 None 3) = Some (tt, s') /\
    trace s' = evs ++ [] /\
    count is_fail_metric evs = 1%nat.
Proof.
  assert (H : backoff_defined default_backoffParam 3)
    by (unfold backoff_defined; simpl; lia).
  split; [exact H|].
  exact (fail_metric_once_per_failure Parse ip2str default_failReqOpt
           default_backoffParam (state WriteChunkClosure WRITE 111 0 None 3)
           0 0 H).
Defined.

Lemma Run_keeps_operation_witness :
  backoff_defined default_backoffParam 1 /\
  exists s',
    Run Parse ip2str default_failReqOpt default_backoffParam 0 0
      (state WriteChunkClosure WRITE 0 10 None 1) = Some (tt, s') /\
    same_operation (request WRITE) (reqCtx_ s') /\
    True.
Proof.
  assert (H : backoff_defined default_backoffParam 1)
    by (unfold backoff_defined; simpl; lia).
  split; [exact H|].
  exact (Run_keeps_operation Parse ip2str default_failReqOpt
           default_backoffParam (state WriteChunkClosure WRITE 0 10 None 1)
           0 0 H).
Defined.

Lemma terminal_status_reported_witness :
  exists s' tr,
    Run Parse ip2str default_failReqOpt default_backoffParam 0 0
      (state WriteChunkClosure WRITE 0 4 None 1) = Some (tt, s') /\
    GetErrorCode (reqDone_ s') = 4 /\
    reqCtx_ s' = request WRITE /\
    trace s' = EvDoneRun :: tr /\ extends_by quiet [] tr.
Proof.
  refine (terminal_status_reported Parse ip2str default_failReqOpt
            default_backoffParam (state WriteChunkClosure WRITE 0 4 None 1)
            0 0 _ _ _).
  - reflexivity.
  - reflexivity.
  - left. reflexivity.
Defined.

Lemma success_installs_result_witness :
  exists s',
    Run Parse ip2str default_failReqOpt default_backoffParam 0 0
      (state ReadChunkClosure READ 0 0 None 1) = Some (tt, s') /\
    GetErrorCode (reqDone_ s') = 0 /\
    trace s'
    = [EvDoneRun; EvIncremRPCQPSCount 8192 READ; EvLatencyRecord 5 READ;
       EvClearTimeout 1 ep0] /\
    reqCtx_ s' = set_readData_ [] (request READ).
Proof.
  refine (success_installs_result Parse ip2str default_failReqOpt
            default_backoffParam (state ReadChunkClosure READ 0 0 None 1)
            0 0 _ _).
  - reflexivity.
  - reflexivity.
Defined.

Lemma overload_reply_backs_off_witness :
  backoff_defined default_backoffParam 1 /\
  exists s' v tr,
    Run Parse ip2str default_failReqOpt default_backoffParam 0 0
      (state WriteChunkClosure WRITE 0 9 None 1) = Some (tt, s') /\
    OverLoadBackOff default_failReqOpt default_backoffParam 1 0 = Some v /\
    reqCtx_ s' = request WRITE /\
    metaCache_ s' = cache0 /\
    trace s'
    = EvSend (retry_request WriteChunkClosure (request WRITE))
      :: Ev_bthread_usleep v :: tr /\
    extends_by is_metric [EvClearTimeout 1 ep0] tr /\
    (100000 <= 8000000 -> 100000 <= v <= 8000000).
Proof.
  assert (H : backoff_defined default_backoffParam 1)
    by (unfold backoff_defined; simpl; lia).
  split; [exact H|].
  refine (overload_reply_backs_off Parse ip2str default_failReqOpt
            default_backoffParam (state WriteChunkClosure WRITE 0 9 None 1)
            0 0 _ H _ _ _).
  - reflexivity.
  - reflexivity.
  - reflexivity.
  - reflexivity.
Defined.

Lemma unknown_status_plain_retry_witness :
  unknown_status 2 /\
  exists s' tr,
    Run Parse ip2str default_failReqOpt default_backoffParam 0 0
      (state WriteChunkClosure WRITE 0 2 None 1) = Some (tt, s') /\
    reqCtx_ s' = request WRITE /\
    metaCache_ s' = cache0 /\
    trace s'
    = EvSend (retry_request WriteChunkClosure (request WRITE))
      :: Ev_bthread_usleep 100000 :: tr /\
    extends_by is_metric [EvClearTimeout 1 ep0] tr.
Proof.
  assert (H : unknown_status 2)
    by (unfold unknown_status; simpl; repeat split; lia).
  split; [exact H|].
  refine (unknown_status_plain_retry Parse ip2str default_failReqOpt
            default_backoffParam (state WriteChunkClosure WRITE 0 2 None 1)
            0 0 _ H _).
  - reflexivity.
  - reflexivity.
Defined.

(** A send that timed out (ERPCTIMEDOUT, 1008) to a chunkserver in state
    NoUnstable. *)
Lemma rpc_failed_health_update_witness :
  exists s1 tr,
    Run_dispatch Parse ip2str (state WriteChunkClosure WRITE 1008 0 None 1)
    = Some (true, s1) /\
    status_ (self s1) = 1008 /\
    trace s1
    = tr ++ [EvIncremTimeOutRPCCount WRITE; EvIncreTimeout 1]
         ++ [EvResetSenderIfNotHealth 1] /\
    tr = [EvGetLeader 3 20 true].
Proof.
  refine (rpc_failed_health_update Parse ip2str
            (state WriteChunkClosure WRITE 1008 0 None 1) _).
  reflexivity.
Defined.

Lemma reply_clears_timeout_witness :
  exists needRetry s1,
    Run_dispatch Parse ip2str (state ReadChunkClosure READ 0 6 None 1)
    = Some (needRetry, s1) /\
    extends_by (fun e => negb (is_health_call e)) [EvClearTimeout 1 ep0]
      (trace s1).
Proof.
  refine (reply_clears_timeout Parse ip2str
            (state ReadChunkClosure READ 0 6 None 1) _).
  reflexivity.
Defined.

(** The authority names chunkserver 2 as the leader; chunkserver 1 had
    answered, so the request is re-sent without a sleep. *)
Lemma copyset_not_exist_refresh_then_retry_witness :
  exists s' tr,
    Run Parse ip2str default_failReqOpt default_backoffParam 0 0
      (state ReadChunkClosure READ 0 6 None 1) = Some (tt, s') /\
    reqCtx_ s' = request READ /\
    metaCache_ s' = mkCache 2 (Some 2) 9 true NoUnstable 0 /\
    retryDirectly_ (self s') = true /\
    trace s'
    = EvSend (retry_request ReadChunkClosure (request READ))
      :: (if retryDirectly_ (self s') || false then tr
          else Ev_bthread_usleep 100000 :: tr) /\
    extends_by is_metric [EvGetLeader 3 20 true; EvClearTimeout 1 ep0] tr.
Proof.
  refine (copyset_not_exist_refresh_then_retry Parse ip2str
            default_failReqOpt default_backoffParam
            (state ReadChunkClosure READ 0 6 None 1) 0 0 _ _ _ _).
  - reflexivity.
  - reflexivity.
  - reflexivity.
  - reflexivity.
Defined.

(** The hint names the peer at port 8200, which is not the chunkserver that
    answered. *)
Lemma redirected_accepted_hint_then_retry_witness :
  exists s' tr,
    Run Parse ip2str default_failReqOpt default_backoffParam 0 0
      (state WriteChunkClosure WRITE 0 1 (Some "1.2.3.4:8200:0"%string) 1)
    = Some (tt, s') /\
    reqCtx_ s' = request WRITE /\
    metaCache_ s' = mkCache 8200 (Some 2) 9 true NoUnstable 0 /\
    retryDirectly_ (self s') = true /\
    trace s'
    = EvSend (retry_request WriteChunkClosure (request WRITE))
      :: (if retryDirectly_ (self s') || false then tr
          else Ev_bthread_usleep 10000 :: tr) /\
    extends_by is_metric
      [EvGetLeader 3 20 false; EvUpdateLeader 3 20 (mkEndPoint 1 8200);
       EvIncremRedirectRPCCount WRITE; EvClearTimeout 1 ep0] tr.
Proof.
  refine (redirected_accepted_hint_then_retry Parse ip2str
            default_failReqOpt default_backoffParam
            (state WriteChunkClosure WRITE 0 1
               (Some "1.2.3.4:8200:0"%string) 1)
            0 0 "1.2.3.4:8200:0"%string _ _ _ _ _ _ _ _).
  - reflexivity.
  - reflexivity.
  - reflexivity.
  - reflexivity.
  - reflexivity.
  - reflexivity.
  - reflexivity.
  - reflexivity.
Defined.

Lemma TimeoutBackOff_always_bounded_witness :
  exists t,
    TimeoutBackOff default_failReqOpt default_backoffParam 9 = Some t /\
    1000 <= t <= Z.max 1000 8000 /\
    (3 <= 9 -> TimeoutBackOff default_failReqOpt default_backoffParam 3
               = Some t).
Proof.
  refine (TimeoutBackOff_always_bounded default_failReqOpt
            default_backoffParam 9 _ _).
  - simpl. lia.
  - lia.
Defined.

Lemma OverLoadBackOff_always_bounded_witness :
  exists v,
    OverLoadBackOff default_failReqOpt default_backoffParam 9 12345 = Some v /\
    100000 <= v <= Z.max 100000 8000000 /\
    (6 <= 9 -> OverLoadBackOff default_failReqOpt default_backoffParam 6 12345
               = Some v).
Proof.
  refine (OverLoadBackOff_always_bounded default_failReqOpt
            default_backoffParam 9 12345 _ _).
  - simpl. lia.
  - lia.
Defined.

Lemma unmatched_Decrement_overloads_witness :
  Throttle.inflightRequestCount_
    (Throttle.run 100 [Throttle.OpIncrement; Throttle.OpDecrement;
                       Throttle.OpDecrement])
  = 2 ^ 64 - 1 /\
  Throttle.IsOverLoad
    (Throttle.run 100 [Throttle.OpIncrement; Throttle.OpDecrement;
                       Throttle.OpDecrement]) = true.
Proof.
  refine (unmatched_Decrement_overloads 100
            [Throttle.OpIncrement; Throttle.OpDecrement; Throttle.OpDecrement]
            _ _).
  - reflexivity.
  - simpl. lia.
Defined.

Lemma Increment_Decrement_inverse_witness :
  Throttle.Decrement (Throttle.Increment (Throttle.construct 0))
  = Throttle.construct 0 /\
  Throttle.Increment (Throttle.Decrement (Throttle.construct 0))
  = Throttle.construct 0.
Proof.
  refine (Increment_Decrement_inverse (Throttle.construct 0) _).
  simpl. lia.
Defined.

Lemma backward_write_rewrites_seq_witness :
  exists s',
    Run Parse ip2str default_failReqOpt default_backoffParam 0 0
      (state WriteChunkClosure WRITE 0 10 None 1) = Some (tt, s') /\
    reqCtx_ s' = set_seq_ (GetLatestFileSn (metaCache_ s')) (request WRITE) /\
    (1 < 3 ->
     exists tr,
       trace s' = EvSend (retry_request WriteChunkClosure (reqCtx_ s')) :: tr
       /\ extends_by not_send_or_done [] tr) /\
    (3 <= 1 ->
     GetErrorCode (reqDone_ s') = 10 /\
     exists tr, trace s' = EvDoneRun :: tr /\ extends_by quiet [] tr).
Proof.
  refine (backward_write_rewrites_seq Parse ip2str default_failReqOpt
            default_backoffParam (state WriteChunkClosure WRITE 0 10 None 1)
            0 0 _ _ _ _).
  - reflexivity.
  - reflexivity.
  - reflexivity.
  - reflexivity.
Defined.

(** The same request answered with BACKWARD after its third send, with a
    budget of three: the sequence number is rewritten (to 9), the error code
    becomes BACKWARD (10) and the completion is run. *)
Example backward_write_budget_exhausted :
  exists s',
    Run Parse ip2str default_failReqOpt default_backoffParam 0 0
      (state WriteChunkClosure WRITE 0 10 None 3) = Some (tt, s') /\
    seq_ (reqCtx_ s') = 9 /\
    GetErrorCode (reqDone_ s') = 10 /\
    trace s' = [EvDoneRun; EvIncremFailRPCCount WRITE; EvClearTimeout 1 ep0].
Proof. eexists. split; [vm_compute; reflexivity|]. repeat split. Qed.
